(** * kko-backend: the request handlers of [main.py], embedded and verified

    The program is a FastAPI service.  Its handlers sequence four external
    collaborators (document text extraction, a chat-completion service, a
    document database and SMTP).  The handlers are embedded as computations
    in a small state-and-exception monad over a [world] made of the database
    collection and a chronological trace of the external calls; what the
    collaborators answer is supplied by a [Services] record, so that every
    theorem holds for all their possible answers. *)

From Stdlib Require Import ZArith String Ascii List Bool Lia.
From Stdlib Require Import Floats.SpecFloat.
From Stdlib Require Import Sorting.Sorted.
From stdpp Require Import gmap strings list.

Set Warnings "-register-all".
Local Open Scope string_scope.
Local Open Scope Z_scope.

(** ** Python strings

    A [str] is a [string] whose characters are read as code points below
    256.  The functions below are the [str] methods the handlers call. *)

Module PyStr.

(** [str.isspace] on one character (code points below 256). *)
Definition isspace (c : ascii) : bool :=
  let n := N_of_ascii c in
  ((9 <=? n) && (n <=? 13) || (28 <=? n) && (n <=? 32)
   || (n =? 133) || (n =? 160))%N.

(** [str.lower] on one character: A-Z, and the upper-case letters of the
    range 192-222 (without the multiplication sign 215). *)
Definition lower_char (c : ascii) : ascii :=
  let n := N_of_ascii c in
  if ((65 <=? n) && (n <=? 90)
      || (192 <=? n) && (n <=? 222) && negb (n =? 215))%N
  then ascii_of_N (n + 32) else c.

Fixpoint lower (s : string) : string :=
  match s with
  | EmptyString => EmptyString
  | String c r => String (lower_char c) (lower r)
  end.

(** [s.endswith(suffix)] *)
Fixpoint endswith (s suffix : string) : bool :=
  if String.eqb s suffix then true
  else match s with
       | EmptyString => false
       | String _ r => endswith r suffix
       end.

Definition is_empty (s : string) : bool :=
  match s with EmptyString => true | _ => false end.

(** [s.split()] with no argument: the maximal runs of non-whitespace
    characters, in order.  [w] is the word being read. *)
Fixpoint split_aux (w s : string) : list string :=
  match s with
  | EmptyString => if is_empty w then [] else [w]
  | String c r =>
      if isspace c
      then (if is_empty w then split_aux EmptyString r
            else w :: split_aux EmptyString r)
      else split_aux (w ++ String c EmptyString) r
  end.

Definition split (s : string) : list string := split_aux EmptyString s.

Fixpoint lstrip (s : string) : string :=
  match s with
  | String c r => if isspace c then lstrip r else s
  | EmptyString => EmptyString
  end.

Fixpoint rstrip (s : string) : string :=
  match s with
  | EmptyString => EmptyString
  | String c r =>
      let r' := rstrip r in
      if isspace c && is_empty r' then EmptyString else String c r'
  end.

(** [s.strip()] *)
Definition strip (s : string) : string := rstrip (lstrip s).

(** [sep.join(l)] *)
Fixpoint join (sep : string) (l : list string) : string :=
  match l with
  | [] => EmptyString
  | [w] => w
  | w :: r => w ++ sep ++ join sep r
  end.

End PyStr.

(** ** Python values

    What [json.loads] returns: [None], booleans, integers, floats, strings,
    lists and dicts with string keys.  The handlers only test key presence
    and look keys up, so a dict is a finite map. *)

Inductive pyval : Type :=
| PNone
| PBool (b : bool)
| PInt (z : Z)
| PFloat (f : spec_float)
| PStr (s : string)
| PList (l : list pyval)
| PDict (m : gmap string pyval).

(** Truth value of an object, as tested by [if x:]. *)
Definition truthy (v : pyval) : bool :=
  match v with
  | PNone => false
  | PBool b => b
  | PInt z => negb (z =? 0)
  | PFloat (S754_zero _) => false
  | PFloat _ => true
  | PStr s => negb (PyStr.is_empty s)
  | PList l => match l with [] => false | _ => true end
  | PDict m => negb (bool_decide (m = ∅))
  end.

(** [d.get(k)]: the value, or [None] when the key is absent. *)
Definition dict_get (m : gmap string pyval) (k : string) : pyval :=
  match m !! k with Some v => v | None => PNone end.

(** [k in d] *)
Definition dict_has (m : gmap string pyval) (k : string) : bool :=
  match m !! k with Some _ => true | None => false end.

(** ** Exceptions, results and the stored data *)

(** [HTTPException(status_code, detail)] is what the framework turns into an
    HTTP error response; [Exception msg] is any other exception, with the
    text [str(e)] gives for it. *)
Inductive exn : Type :=
| HTTPException (status_code : Z) (detail : string)
| Exception (msg : string).

Inductive outcome (A : Type) : Type :=
| Ok (a : A)
| Raise (e : exn).
Arguments Ok {A} a.
Arguments Raise {A} e.

(** A [bson.ObjectId], represented by its canonical text [str(oid)]: 24
    lower-case hexadecimal characters. *)
Definition ObjectId : Type := string.

(** One entry of the notification list (the dicts built by
    [prepare_email_data]); [department] and [to] are whatever the model
    answered under "name" and "email". *)
Record email_entry : Type := {
  department : pyval;
  summary : string;
  subject : string;
  to : pyval
}.

(** The dict [upload_pdf] inserts: a Submission Record without its id. *)
Record submission : Type := {
  filename : string;
  extracted_text : string;
  sub_summary : string;
  departments : list pyval;
  timestamp : Z;
  email_data : list email_entry
}.

(** A stored record: the id the database assigned, and the fields. *)
Definition document : Type := (ObjectId * submission)%type.

Record UploadFile : Type := {
  file_filename : string;
  file_content : list Byte.byte
}.

(** The pydantic models of the responses. *)
Record SummaryResponse : Type := {
  sr_filename : string;
  sr_departments : list (gmap string string);
  sr_summary : string;
  sr_mongo_id : string
}.

Record ChatRequest : Type := {
  mongo_id : string;
  question : string
}.

Record ChatResponse : Type := { answer : string }.

(** The dict [get_all_documents] returns. *)
Record listing : Type := {
  data : list document;
  page : Z;
  limit : Z;
  total : Z;
  total_pages : Z;
  has_next : bool;
  has_prev : bool
}.

Record EmailMessage : Type := {
  msg_From : string;
  msg_To : pyval;
  msg_Subject : string;
  msg_content : string
}.

(** ** The world: database collection and trace of external effects *)

Inductive level : Type := INFO | WARNING | ERROR.

Inductive event : Type :=
| CallProcessDocument (content : list Byte.byte)
| CallSummarize (text : string)
| CallAnswer (doc_summary doc_text qn : string)
| DbFindOne (oid : ObjectId)
| DbInsertOne (doc : submission)
| DbCountDocuments
| DbFind (skip lim : Z)
| AddTask (emails : list email_entry)
| SmtpSend (msg : EmailMessage)
| FileClose
| Log (lv : level).

Record world : Type := {
  db : list document;
  trace : list event
}.

(** The reply of a collaborator: [inr] a value, or [inl] the text of the
    exception its client library raised. *)
Definition reply (A : Type) : Type := (string + A)%type.

(** What the collaborators answer.  Each field is the result of one external
    call for given arguments. *)
Record Services : Type := {
  (** [documentai_client.process_document(...).document.text] *)
  process_document : list Byte.byte -> reply string;
  (** [choices[0].message.content] of the JSON-mode completion for the
      summarization prompt built from the text *)
  summarize_completion : string -> reply (option string);
  (** the same for the question prompt built from summary, text, question *)
  answer_completion : string -> string -> string -> reply (option string);
  (** [json.loads]; [None] is [JSONDecodeError] *)
  json_loads : string -> option pyval;
  (** [ObjectId(s)]; [inl] is [InvalidId] *)
  bson_ObjectId : string -> reply ObjectId;
  (** [_id] given by [insert_one] to a new record, or its failure *)
  mongo_insert_one : list document -> submission -> reply ObjectId;
  (** failures of the read operations *)
  mongo_find_one_error : ObjectId -> option string;
  mongo_count_error : option string;
  mongo_find_error : Z -> Z -> option string;
  (** [aiosmtplib.send] *)
  smtp_send : EmailMessage -> reply unit;
  (** [datetime.utcnow()] *)
  utcnow : Z;
  (** [str(v)] as formatted into an f-string, for [v] not a [str] *)
  py_str : pyval -> string;
  (** [str(e)] of an [HTTPException] *)
  str_HTTPException : Z -> string -> string;
  (** pydantic's conversion of a number or boolean to a [str] field
      ([None] where it refuses) *)
  pydantic_coerce_str : pyval -> option string;
  (** [str(e)] of the [ValidationError] for a refused departments list *)
  pydantic_error_text : list pyval -> string;
  (** configuration *)
  SMTP_USER : string
}.

(** ** The handler monad: state, trace and exceptions *)

Definition M (A : Type) : Type := world -> outcome A * world.

Definition ret {A} (a : A) : M A := fun w => (Ok a, w).

Definition bind {A B} (m : M A) (k : A -> M B) : M B :=
  fun w => match m w with
           | (Ok a, w') => k a w'
           | (Raise e, w') => (Raise e, w')
           end.

Definition raise {A} (e : exn) : M A := fun w => (Raise e, w).

(** [try: m  except Exception as e: h e] *)
Definition try_except {A} (m : M A) (h : exn -> M A) : M A :=
  fun w => match m w with
           | (Ok a, w') => (Ok a, w')
           | (Raise e, w') => h e w'
           end.

(** [try: m  finally: f] *)
Definition try_finally {A} (m : M A) (f : M unit) : M A :=
  fun w => match m w with
           | (r, w') => match f w' with
                        | (Ok _, w'') => (r, w'')
                        | (Raise e, w'') => (Raise e, w'')
                        end
           end.

Definition emit (e : event) : M unit :=
  fun w => (Ok tt, {| db := db w; trace := (trace w ++ [e])%list |}).

Definition lift {A} (o : outcome A) : M A := fun w => (o, w).

Definition get_db : M (list document) := fun w => (Ok (db w), w).

Definition put_db (d : list document) : M unit :=
  fun w => (Ok tt, {| db := d; trace := trace w |}).

Declare Scope handler_scope.
Delimit Scope handler_scope with handler.
Notation "x <- m ;; k" := (bind m (fun x => k))
  (at level 100, m at next level, right associativity) : handler_scope.
Notation "m ;;; k" := (bind m (fun _ => k))
  (at level 100, right associativity) : handler_scope.
Local Open Scope handler_scope.

(** Receiving a reply: the value, or the exception raised. *)
Definition lift_reply {A} (r : reply A) : M A :=
  match r with
  | inr a => ret a
  | inl msg => raise (Exception msg)
  end.

Definition is_str (v : pyval) : bool :=
  match v with PStr _ => true | _ => false end.

(** [isinstance(d, dict) and "name" in d and "email" in d] *)
Definition is_department (d : pyval) : bool :=
  match d with
  | PDict m => dict_has m "name" && dict_has m "email"
  | _ => false
  end.

(** [type(v).__name__] *)
Definition type_name (v : pyval) : string :=
  match v with
  | PNone => "NoneType"
  | PBool _ => "bool"
  | PInt _ => "int"
  | PFloat _ => "float"
  | PStr _ => "str"
  | PList _ => "list"
  | PDict _ => "dict"
  end.

Section Handlers.

Variable svc : Services.

Definition str_exc (e : exn) : string :=
  match e with
  | HTTPException c d => str_HTTPException svc c d
  | Exception msg => msg
  end.

(** A value formatted into an f-string. *)
Definition format_value (v : pyval) : string :=
  match v with
  | PStr s => s
  | _ => py_str svc v
  end.

(** *** Extraction adapter (main.py, lines 118-146) *)
Definition extract_text_from_pdf (file_content : list Byte.byte) : M string :=
  try_except
    (emit (CallProcessDocument file_content) ;;;
     text <- lift_reply (process_document svc file_content) ;;
     if PyStr.is_empty text
     then raise (Exception "No text extracted from the document")
     else ret text)
    (fun e =>
       emit (Log ERROR) ;;;
       raise (HTTPException 500
                ("Failed to extract text from PDF: " ++ str_exc e))).

(** *** Summarization adapter (main.py, lines 149-217)

    The result is the pair [parsed_result["summary"],
    parsed_result["departments"]] of Python values. *)
Definition process_with_gpt4o (text : string) : M (pyval * pyval) :=
  try_except
    (emit (CallSummarize text) ;;;
     result <- lift_reply (summarize_completion svc text) ;;
     parsed_result <-
       match result with
       | None =>
           raise (Exception
             "the JSON object must be str, bytes or bytearray, not NoneType")
       | Some raw =>
           match json_loads svc raw with
           | Some v => ret v
           | None =>
               emit (Log ERROR) ;;;
               raise (HTTPException 500
                        "Invalid JSON response from Azure OpenAI")
           end
       end ;;
     match parsed_result with
     | PDict m =>
         match m !! "summary", m !! "departments" with
         | Some s, Some d =>
             if negb (is_str s) then
               emit (Log ERROR) ;;;
               raise (HTTPException 500
                        "Azure OpenAI returned invalid summary type")
             else
               match d with
               | PList l =>
                   if forallb is_department l then ret (s, d)
                   else
                     emit (Log ERROR) ;;;
                     raise (HTTPException 500
                       "Invalid departments format returned from Azure OpenAI")
               | _ =>
                   emit (Log ERROR) ;;;
                   raise (HTTPException 500
                     "Invalid departments format returned from Azure OpenAI")
               end
         | _, _ =>
             emit (Log ERROR) ;;;
             raise (HTTPException 500
                      "Azure OpenAI response missing required fields")
         end
     | _ =>
         emit (Log ERROR) ;;;
         raise (HTTPException 500
                  "Azure OpenAI response missing required fields")
     end)
    (fun e =>
       emit (Log ERROR) ;;;
       raise (HTTPException 500
                ("Failed to process text with Azure OpenAI: " ++ str_exc e))).

(** *** Notification list (main.py, lines 220-230)

    [dept.get("email")] is tested for truth; [dept["name"]] raises
    [KeyError] on a dict without the key, and [dept.get] raises
    [AttributeError] on a value that is not a dict. *)
Definition make_entry (name email : pyval) (summary filename : string)
  : email_entry :=
  {| department := name;
     summary := summary;
     subject := "Notice Summary for " ++ format_value name ++ ": " ++ filename;
     to := email |}.

Fixpoint prepare_email_data (departments : list pyval)
    (summary filename : string) : outcome (list email_entry) :=
  match departments with
  | [] => Ok []
  | dept :: rest =>
      match dept with
      | PDict m =>
          if truthy (dict_get m "email") then
            match m !! "name" with
            | Some name =>
                match prepare_email_data rest summary filename with
                | Ok email_list =>
                    Ok (make_entry name (dict_get m "email") summary filename
                          :: email_list)
                | Raise e => Raise e
                end
            | None => Raise (Exception "'name'")
            end
          else prepare_email_data rest summary filename
      | _ =>
          Raise (Exception ("'" ++ type_name dept
                              ++ "' object has no attribute 'get'"))
      end
  end.

(** *** Notification dispatcher (main.py, lines 233-256)

    [header_error name value] is what the assignment [msg[name] = value]
    raises inside the mail library ([None] when the value is taken).  The
    three assignments stand before the [try]: an exception of theirs ends
    the function, and with it the rest of the batch.  Only the exceptions
    of [aiosmtplib.send] are caught and logged. *)
Definition compose_message (email_entry : email_entry) : EmailMessage :=
  {| msg_From := SMTP_USER svc;
     msg_To := to email_entry;
     msg_Subject := subject email_entry;
     msg_content := summary email_entry |}.

Definition set_header (header_error : string -> pyval -> option string)
    (name : string) (value : pyval) : M unit :=
  match header_error name value with
  | Some msg => raise (Exception msg)
  | None => ret tt
  end.

Fixpoint send_each (header_error : string -> pyval -> option string)
    (email_data : list email_entry) : M unit :=
  match email_data with
  | [] => ret tt
  | email_entry :: rest =>
      set_header header_error "From" (PStr (SMTP_USER svc)) ;;;
      set_header header_error "To" (to email_entry) ;;;
      set_header header_error "Subject" (PStr (subject email_entry)) ;;;
      let msg := compose_message email_entry in
      try_except
        (emit (SmtpSend msg) ;;;
         _ <- lift_reply (smtp_send svc msg) ;;
         emit (Log INFO))
        (fun _ => emit (Log ERROR)) ;;;
      send_each header_error rest
  end.

Definition send_emails_async (header_error : string -> pyval -> option string)
    (email_data : list email_entry) : M unit :=
  match email_data with
  | [] => emit (Log WARNING)
  | _ => send_each header_error email_data
  end.

(** *** Database operations of the collection *)

(** [collection.find_one({"_id": oid})] *)
Definition find_one (oid : ObjectId) : M (option document) :=
  emit (DbFindOne oid) ;;;
  match mongo_find_one_error svc oid with
  | Some msg => raise (Exception msg)
  | None =>
      d <- get_db ;;
      ret (List.find (fun doc => String.eqb (fst doc) oid) d)
  end.

(** [collection.insert_one(document)]: the record is stored under the id
    the database returns. *)
Definition insert_one (doc : submission) : M ObjectId :=
  emit (DbInsertOne doc) ;;;
  d <- get_db ;;
  oid <- lift_reply (mongo_insert_one svc d doc) ;;
  put_db (d ++ [(oid, doc)]) ;;;
  ret oid.

(** [collection.count_documents({})] *)
Definition count_documents : M Z :=
  emit DbCountDocuments ;;;
  match mongo_count_error svc with
  | Some msg => raise (Exception msg)
  | None => d <- get_db ;; ret (Z.of_nat (length d))
  end.

(** [sort("timestamp", -1)]: newest first.  The database promises no order
    among records of equal time; here they keep their order of insertion
    ([doc], inserted before the records of [l], goes before those of its
    own time). *)
Fixpoint insert_desc (doc : document) (l : list document) : list document :=
  match l with
  | [] => [doc]
  | x :: r =>
      if timestamp (snd x) <=? timestamp (snd doc)
      then doc :: x :: r
      else x :: insert_desc doc r
  end.

Fixpoint sort_desc (l : list document) : list document :=
  match l with
  | [] => []
  | x :: r => insert_desc x (sort_desc r)
  end.

(** [collection.find().sort("timestamp", -1).skip(skip).limit(limit)],
    read to its end.  The driver refuses a negative skip; for the
    database a limit of 0 is no limit and a negative one counts as its
    absolute value. *)
Definition find_page (skip limit : Z) : M (list document) :=
  if skip <? 0 then raise (Exception "skip must be >= 0")
  else
    emit (DbFind skip limit) ;;;
    match mongo_find_error svc skip limit with
    | Some msg => raise (Exception msg)
    | None =>
        d <- get_db ;;
        let rest := drop (Z.to_nat skip) (sort_desc d) in
        ret (if limit =? 0 then rest
             else take (Z.to_nat (Z.abs limit)) rest)
    end.

(** *** Query handler (main.py, lines 259-308) *)
Definition answer_question (mongo_id question : string) : M string :=
  try_except
    (oid <- lift_reply (bson_ObjectId svc mongo_id) ;;
     document <- find_one oid ;;
     match document with
     | None =>
         emit (Log ERROR) ;;;
         raise (HTTPException 404 "Document not found")
     | Some doc =>
         let summary := sub_summary (snd doc) in
         let extracted_text := extracted_text (snd doc) in
         emit (CallAnswer summary extracted_text question) ;;;
         content <- lift_reply
                      (answer_completion svc summary extracted_text question) ;;
         answer <-
           match content with
           | Some c => ret (PyStr.strip c)
           | None =>
               raise (Exception
                        "'NoneType' object has no attribute 'strip'")
           end ;;
         let word_count := Z.of_nat (length (PyStr.split answer)) in
         if (word_count <? 20) || (word_count >? 30) then
           emit (Log WARNING) ;;;
           ret (if word_count >? 30
                then PyStr.join " " (take 30 (PyStr.split answer))
                else answer)
         else ret answer
     end)
    (fun e =>
       match e with
       | HTTPException _ _ => raise e
       | Exception _ =>
           emit (Log ERROR) ;;;
           raise (HTTPException 500
                    ("Failed to answer question: " ++ str_exc e))
       end).

(** *** The response model [SummaryResponse] (main.py, lines 58-62)

    [departments: List[Dict[str, str]]]: every value of every entry has
    to validate as a [str].  A [str] does, [None], lists and dicts do
    not; numbers and booleans are left to [pydantic_coerce_str]. *)
Definition validate_str (v : pyval) : option string :=
  match v with
  | PStr s => Some s
  | PNone | PList _ | PDict _ => None
  | PBool _ | PInt _ | PFloat _ => pydantic_coerce_str svc v
  end.

Definition validate_str_dict (v : pyval) : option (gmap string string) :=
  match v with
  | PDict m =>
      if bool_decide (map_Forall (fun _ x => is_Some (validate_str x)) m)
      then Some (omap validate_str m)
      else None
  | _ => None
  end.

Definition new_SummaryResponse (filename : string) (departments : list pyval)
    (summary mongo_id : string) : outcome SummaryResponse :=
  match mapM validate_str_dict departments with
  | Some ds =>
      Ok {| sr_filename := filename;
            sr_departments := ds;
            sr_summary := summary;
            sr_mongo_id := mongo_id |}
  | None => Raise (Exception (pydantic_error_text svc departments))
  end.

(** *** Upload handler (main.py, lines 311-371)

    [background_tasks] tells whether the framework passed a
    [BackgroundTasks] object ([if background_tasks:]). *)
Definition upload_pdf (file : UploadFile) (background_tasks : bool)
  : M SummaryResponse :=
  if negb (PyStr.endswith (PyStr.lower (file_filename file)) ".pdf") then
    raise (HTTPException 400 "Only PDF files are allowed")
  else
    try_finally
      (try_except
         (let file_content := file_content file in
          extracted_text <- extract_text_from_pdf file_content ;;
          r <- process_with_gpt4o extracted_text ;;
          let '(summary, departments) := r in
          match summary with
          | PStr summary =>
              match departments with
              | PList departments =>
                  if forallb is_department departments then
                    email_data <-
                      lift (prepare_email_data departments summary
                              (file_filename file)) ;;
                    (if background_tasks then emit (AddTask email_data)
                     else ret tt) ;;;
                    let document :=
                      {| filename := file_filename file;
                         extracted_text := extracted_text;
                         sub_summary := summary;
                         departments := departments;
                         timestamp := utcnow svc;
                         email_data := email_data |} in
                    inserted_id <- insert_one document ;;
                    lift (new_SummaryResponse (file_filename file)
                            departments summary inserted_id)
                  else
                    emit (Log ERROR) ;;;
                    raise (HTTPException 500
                      "Invalid departments format returned from Azure OpenAI")
              | _ =>
                  emit (Log ERROR) ;;;
                  raise (HTTPException 500
                    "Invalid departments format returned from Azure OpenAI")
              end
          | _ =>
              emit (Log ERROR) ;;;
              raise (HTTPException 500
                       "Invalid summary format returned from Azure OpenAI")
          end)
         (fun e =>
            match e with
            | HTTPException _ _ => raise e
            | Exception _ =>
                emit (Log ERROR) ;;;
                raise (HTTPException 500
                         ("Internal server error: " ++ str_exc e))
            end))
      (emit FileClose).

(** *** Chat endpoint (main.py, lines 374-386) *)
Definition chat (request : ChatRequest) : M ChatResponse :=
  try_except
    (answer <- answer_question (mongo_id request) (question request) ;;
     ret {| answer := answer |})
    (fun e =>
       match e with
       | HTTPException _ _ => raise e
       | Exception _ =>
           emit (Log ERROR) ;;;
           raise (HTTPException 500
                    ("Internal server error: " ++ str_exc e))
       end).

(** *** Listing handler (main.py, lines 388-431)

    A query parameter that the request leaves out takes the default of
    the signature, [page: int = 1, limit: int = 5]. *)
Definition effective_page (page : Z) : Z :=
  if page <? 1 then 1 else page.

Definition effective_limit (limit : Z) : Z :=
  let limit := if limit <? 1 then 5 else limit in
  if limit >? 50 then 50 else limit.

Definition get_all_documents (page limit : option Z) : M listing :=
  let page := default 1 page in
  let limit := default 5 limit in
  try_except
    (let page := effective_page page in
     let limit := effective_limit limit in
     total <- count_documents ;;
     let skip := (page - 1) * limit in
     docs <- find_page skip limit ;;
     let total_pages :=
       if limit =? 0 then 1 else (total + limit - 1) / limit in
     ret {| data := docs;
            page := page;
            limit := limit;
            total := total;
            total_pages := total_pages;
            has_next := page <? total_pages;
            has_prev := page >? 1 |})
    (fun e =>
       emit (Log ERROR) ;;;
       raise (HTTPException 500
                ("Failed to fetch documents: " ++ str_exc e))).

End Handlers.

(** ** Startup (main.py, lines 36-50 and 72-115)

    The settings read from the environment, the process-wide client
    handles, and the event handler that fills them. *)

Module Startup.

(** The settings [startup_event] tests; [None] is a variable that is not
    set.  [SMTP_SERVER] has a default and is always a string. *)
Record Settings : Type := {
  GOOGLE_CREDENTIALS_JSON : option string;
  GOOGLE_PROJECT_ID : option string;
  DOCUMENT_AI_PROCESSOR_ID : option string;
  AZURE_OPENAI_KEY : option string;
  AZURE_OPENAI_ENDPOINT : option string;
  SMTP_SERVER : string;
  SMTP_USER : option string;
  SMTP_PASSWORD : option string
}.

(** What the client libraries answer at startup. *)
Record Libraries : Type := {
  (** [AsyncIOMotorClient(MONGO_URI)] *)
  new_mongo_client : reply unit;
  (** [mongo_client.server_info()] *)
  server_info : reply unit;
  (** [str(e)] of the [JSONDecodeError] for a text *)
  json_error_text : string -> string;
  (** [Credentials.from_service_account_info(creds_dict)] followed by
      [DocumentProcessorServiceClient(credentials=...)] *)
  new_documentai_client : pyval -> reply unit;
  (** [AsyncAzureOpenAI(...)] *)
  new_azure_client : reply unit
}.

(** The three global handles: [true] once assigned a client. *)
Record Clients : Type := {
  mongo_client : bool;
  documentai_client : bool;
  azure_openai_client : bool
}.

(** [not x] for an optional string: unset or empty. *)
Definition unset (x : option string) : bool :=
  match x with
  | None => true
  | Some s => PyStr.is_empty s
  end.

(** The [except Exception] of [startup_event]. *)
Definition failed (c : Clients) (logs : list level) (msg : string)
  : outcome unit * Clients * list level :=
  (Raise (HTTPException 500 ("Failed to initialize services: " ++ msg)),
   c, (logs ++ [ERROR])%list).

(** [startup_event]: the result, the handles and the log levels written. *)
Definition startup_event (env : Settings) (lib : Libraries)
    (json_loads : string -> option pyval) (c : Clients)
  : outcome unit * Clients * list level :=
  match new_mongo_client lib with
  | inl msg => failed c [] msg
  | inr _ =>
  let c := {| mongo_client := true;
              documentai_client := documentai_client c;
              azure_openai_client := azure_openai_client c |} in
  match server_info lib with
  | inl msg => failed c [] msg
  | inr _ =>
  if unset (GOOGLE_CREDENTIALS_JSON env) || unset (GOOGLE_PROJECT_ID env)
     || unset (DOCUMENT_AI_PROCESSOR_ID env)
  then failed c [INFO]
         "GOOGLE_CREDENTIALS_JSON, GOOGLE_PROJECT_ID, or DOCUMENT_AI_PROCESSOR_ID not set in .env"
  else
  let creds := default EmptyString (GOOGLE_CREDENTIALS_JSON env) in
  match json_loads creds with
  | None =>
      failed c [INFO]
        ("Invalid GOOGLE_CREDENTIALS_JSON format: " ++ json_error_text lib creds)
  | Some creds_dict =>
  match new_documentai_client lib creds_dict with
  | inl msg =>
      failed c [INFO]
        ("Failed to initialize Google Document AI client: " ++ msg)
  | inr _ =>
  let c := {| mongo_client := true;
              documentai_client := true;
              azure_openai_client := azure_openai_client c |} in
  if unset (AZURE_OPENAI_KEY env) || unset (AZURE_OPENAI_ENDPOINT env)
  then failed c [INFO; INFO]
         "AZURE_OPENAI_KEY or AZURE_OPENAI_ENDPOINT not set"
  else
  match new_azure_client lib with
  | inl msg => failed c [INFO; INFO] msg
  | inr _ =>
  let c := {| mongo_client := true;
              documentai_client := true;
              azure_openai_client := true |} in
  if unset (SMTP_USER env) || unset (SMTP_PASSWORD env)
     || PyStr.is_empty (SMTP_SERVER env)
  then failed c [INFO; INFO; INFO]
         "SMTP_USER, SMTP_PASSWORD, or SMTP_SERVER not set in .env"
  else (Ok tt, c, [INFO; INFO; INFO; INFO])
  end end end end end.

(** [health_check] (main.py, lines 434-444): without a Mongo client the
    attribute access raises; every exception becomes a 503. *)
Definition health_check (lib : Libraries) (c : Clients)
  : outcome string * list level :=
  if mongo_client c then
    match server_info lib with
    | inr _ => (Ok "healthy", [])
    | inl _ => (Raise (HTTPException 503 "Service unhealthy"), [ERROR])
    end
  else (Raise (HTTPException 503 "Service unhealthy"), [ERROR]).

End Startup.

(** ** Vocabulary of the statements *)

(** The world after further events: same collection, longer trace. *)
Definition record_events (w : world) (evs : list event) : world :=
  {| db := db w; trace := (trace w ++ evs)%list |}.

Definition is_log (e : event) : Prop :=
  match e with Log _ => True | _ => False end.

(** Events that touch neither the collection nor the task queue. *)
Definition is_call_or_log (e : event) : Prop :=
  match e with
  | CallProcessDocument _ | CallSummarize _ | Log _ | FileClose => True
  | _ => False
  end.

(** From the specification: the filename ends in ".pdf", compared without
    regard to case. *)
Definition ends_with_pdf_ci (s : string) : Prop :=
  exists (p : string) (c1 c2 c3 : ascii),
    s = p ++ String "."%char (String c1 (String c2 (String c3 EmptyString)))
    /\ (c1 = "p"%char \/ c1 = "P"%char)
    /\ (c2 = "d"%char \/ c2 = "D"%char)
    /\ (c3 = "f"%char \/ c3 = "F"%char).

(** The parsed response is an object whose "summary" is the string [s] and
    whose "departments" is the list [l] of department entries. *)
Definition well_formed_answer (parsed : option pyval) (s : string)
    (l : list pyval) : Prop :=
  exists m, parsed = Some (PDict m)
            /\ m !! "summary" = Some (PStr s)
            /\ m !! "departments" = Some (PList l)
            /\ forallb is_department l = true.

(** [isinstance(d, list) and all(... for x in d)] (main.py, line 330) *)
Definition is_department_list (d : pyval) : bool :=
  match d with
  | PList l => forallb is_department l
  | _ => false
  end.

(** Extraction, summarization or the validation of their outputs fails for
    the upload of [file] in the world [w]. *)
Definition processing_fails (svc : Services) (file : UploadFile) (w : world)
  : Prop :=
  (exists e w1,
      extract_text_from_pdf svc (file_content file) w = (Raise e, w1))
  \/ (exists text w1 e w2,
      extract_text_from_pdf svc (file_content file) w = (Ok text, w1)
      /\ process_with_gpt4o svc text w1 = (Raise e, w2))
  \/ (exists text w1 s d w2,
      extract_text_from_pdf svc (file_content file) w = (Ok text, w1)
      /\ process_with_gpt4o svc text w1 = (Ok (s, d), w2)
      /\ (is_str s = false \/ is_department_list d = false)).

(** The "name" and "email" of a department entry. *)
Definition name_of (d : pyval) : pyval :=
  match d with PDict m => dict_get m "name" | _ => PNone end.

Definition email_of (d : pyval) : pyval :=
  match d with PDict m => dict_get m "email" | _ => PNone end.

Definition is_null (v : pyval) : bool :=
  match v with PNone => true | _ => false end.

(** The notification entry of the department [d]. *)
Definition entry_for (svc : Services) (summary filename : string) (d : pyval)
  : email_entry :=
  {| department := name_of d;
     summary := summary;
     subject := "Notice Summary for " ++ format_value svc (name_of d)
                  ++ ": " ++ filename;
     to := email_of d |}.

(** From the specification: one entry for each department whose email is
    not null, none for the others. *)
Definition claimed_email_list (svc : Services) (departments : list pyval)
    (summary filename : string) : list email_entry :=
  map (entry_for svc summary filename)
      (List.filter (fun d => negb (is_null (email_of d))) departments).

(** The value under a key of a parsed response that is an object. *)
Definition value_at (v : pyval) (k : string) : option pyval :=
  match v with PDict m => m !! k | _ => None end.

(** From the specification: the response is not parseable JSON, or lacks the
    "summary" or "departments" key, or "summary" is not a string, or some
    element of "departments" is not an object with "name" and "email". *)
Definition claimed_failure (parsed : option pyval) : Prop :=
  match parsed with
  | None => True
  | Some v =>
      value_at v "summary" = None
      \/ value_at v "departments" = None
      \/ (exists x, value_at v "summary" = Some x /\ is_str x = false)
      \/ (exists l el, value_at v "departments" = Some (PList l)
                       /\ In el l /\ is_department el = false)
  end.

(** The failure condition of the code: the one above, and also
    "departments" not being a list. *)
Definition malformed (parsed : option pyval) : Prop :=
  match parsed with
  | None => True
  | Some v =>
      value_at v "summary" = None
      \/ value_at v "departments" = None
      \/ (exists x, value_at v "summary" = Some x /\ is_str x = false)
      \/ (exists d, value_at v "departments" = Some d
                    /\ forall l, d <> PList l)
      \/ (exists l el, value_at v "departments" = Some (PList l)
                       /\ In el l /\ is_department el = false)
  end.

(** The record stored for an upload, and the events of an upload that
    reaches the database. *)
Definition stored_record (svc : Services) (file : UploadFile) (text s : string)
    (l : list pyval) : submission :=
  {| filename := file_filename file;
     extracted_text := text;
     sub_summary := s;
     departments := l;
     timestamp := utcnow svc;
     email_data :=
       map (entry_for svc s (file_filename file))
           (List.filter (fun d => truthy (email_of d)) l) |}.

Definition events_to_insert (svc : Services) (file : UploadFile) (bt : bool)
    (text s : string) (l : list pyval) : list event :=
  ([CallProcessDocument (file_content file); CallSummarize text]
   ++ (if bt then [AddTask (email_data (stored_record svc file text s l))]
       else [])
   ++ [DbInsertOne (stored_record svc file text s l)])%list.

(** From the specification: [x] clamped into the interval [lo, hi]. *)
Definition clamp (lo hi x : Z) : Z := Z.max lo (Z.min hi x).

(** A word: a non-empty string without whitespace. *)
Fixpoint no_space (s : string) : bool :=
  match s with
  | EmptyString => true
  | String c r => negb (PyStr.isspace c) && no_space r
  end.

Definition is_word (s : string) : Prop :=
  PyStr.is_empty s = false /\ no_space s = true.

(** [a] is listed before [b]: it is not older. *)
Definition not_older (a b : document) : Prop :=
  timestamp (snd b) <= timestamp (snd a).

(** The records the listing returns for a page (none if it fails). *)
Definition page_data (svc : Services) (w : world) (lim : Z) (k : nat)
  : list document :=
  match fst (get_all_documents svc (Some (Z.of_nat k)) (Some lim) w) with
  | Ok r => data r
  | Raise _ => []
  end.

(** The messages handed to the mail transport, in order. *)
Fixpoint smtp_sent (evs : list event) : list EmailMessage :=
  match evs with
  | [] => []
  | SmtpSend msg :: r => msg :: smtp_sent r
  | _ :: r => smtp_sent r
  end.

(** A department entry [prepare_email_data] gets through: a dict that has
    a "name" whenever its "email" is true. *)
Definition sendable (d : pyval) : bool :=
  match d with
  | PDict m => negb (truthy (dict_get m "email")) || dict_has m "name"
  | _ => false
  end.

(** A department entry all of whose values are strings. *)
Definition str_valued (d : pyval) : Prop :=
  match d with
  | PDict m => map_Forall (fun _ v => is_str v = true) m
  | _ => False
  end.

(** The strings of a string-valued entry. *)
Definition strings_of (d : pyval) : gmap string string :=
  match d with
  | PDict m => omap (fun v => match v with PStr s => Some s | _ => None end) m
  | _ => ∅
  end.

(** The result of [answer_question], path by path. *)
Inductive answer_path (svc : Services) (id q : string) (w : world)
  : outcome string * world -> Prop :=
| path_invalid_id msg :
    bson_ObjectId svc id = inl msg ->
    answer_path svc id q w
      (Raise (HTTPException 500 ("Failed to answer question: " ++ msg)),
       record_events w [Log ERROR])
| path_lookup_error oid msg :
    bson_ObjectId svc id = inr oid ->
    mongo_find_one_error svc oid = Some msg ->
    answer_path svc id q w
      (Raise (HTTPException 500 ("Failed to answer question: " ++ msg)),
       record_events w [DbFindOne oid; Log ERROR])
| path_not_found oid :
    bson_ObjectId svc id = inr oid ->
    mongo_find_one_error svc oid = None ->
    List.find (fun doc => String.eqb (fst doc) oid) (db w) = None ->
    answer_path svc id q w
      (Raise (HTTPException 404 "Document not found"),
       record_events w [DbFindOne oid; Log ERROR])
| path_no_answer oid doc detail :
    bson_ObjectId svc id = inr oid ->
    mongo_find_one_error svc oid = None ->
    List.find (fun doc => String.eqb (fst doc) oid) (db w) = Some doc ->
    answer_path svc id q w
      (Raise (HTTPException 500 detail),
       record_events w
         [DbFindOne oid;
          CallAnswer (sub_summary (snd doc)) (extracted_text (snd doc)) q;
          Log ERROR])
| path_answer oid doc content :
    bson_ObjectId svc id = inr oid ->
    mongo_find_one_error svc oid = None ->
    List.find (fun doc => String.eqb (fst doc) oid) (db w) = Some doc ->
    answer_completion svc (sub_summary (snd doc)) (extracted_text (snd doc)) q
    = inr (Some content) ->
    let answer := PyStr.strip content in
    let word_count := Z.of_nat (length (PyStr.split answer)) in
    let asked := [DbFindOne oid;
                  CallAnswer (sub_summary (snd doc)) (extracted_text (snd doc)) q] in
    answer_path svc id q w
      (if (word_count <? 20) || (word_count >? 30)
       then (Ok (if word_count >? 30
                 then PyStr.join " " (take 30 (PyStr.split answer))
                 else answer),
             record_events w (asked ++ [Log WARNING]))
       else (Ok answer, record_events w asked)).

(** Everything [startup_event] needs is there: the two database calls
    answer, the Google settings are set and the credentials parse and are
    accepted, the Azure settings are set and the client is built, and the
    SMTP settings are set. *)
Definition startup_ready (env : Startup.Settings) (lib : Startup.Libraries)
    (json_loads : string -> option pyval) : Prop :=
  (exists u, Startup.new_mongo_client lib = inr u)
  /\ (exists u, Startup.server_info lib = inr u)
  /\ Startup.unset (Startup.GOOGLE_CREDENTIALS_JSON env) = false
  /\ Startup.unset (Startup.GOOGLE_PROJECT_ID env) = false
  /\ Startup.unset (Startup.DOCUMENT_AI_PROCESSOR_ID env) = false
  /\ (exists creds_dict u,
        json_loads (default EmptyString (Startup.GOOGLE_CREDENTIALS_JSON env))
        = Some creds_dict
        /\ Startup.new_documentai_client lib creds_dict = inr u)
  /\ Startup.unset (Startup.AZURE_OPENAI_KEY env) = false
  /\ Startup.unset (Startup.AZURE_OPENAI_ENDPOINT env) = false
  /\ (exists u, Startup.new_azure_client lib = inr u)
  /\ Startup.unset (Startup.SMTP_USER env) = false
  /\ Startup.unset (Startup.SMTP_PASSWORD env) = false
  /\ PyStr.is_empty (Startup.SMTP_SERVER env) = false.

(** The mail library takes the three header values of the message for an
    entry. *)
Definition headers_accepted (svc : Services)
    (header_error : string -> pyval -> option string) (e : email_entry)
  : bool :=
  match header_error "From" (PStr (SMTP_USER svc)),
        header_error "To" (to e),
        header_error "Subject" (PStr (subject e)) with
  | None, None, None => true
  | _, _, _ => false
  end.

(** From the specification: the words joined by single spaces. *)
Inductive joined_by_spaces : list string -> string -> Prop :=
| joined_none : joined_by_spaces [] EmptyString
| joined_one (w : string) : joined_by_spaces [w] w
| joined_more (w : string) (ws : list string) (s : string) :
    ws <> [] -> joined_by_spaces ws s ->
    joined_by_spaces (w :: ws) (w ++ String " "%char s).

(** [a] is [content] without the whitespace around it. *)
Fixpoint all_space (s : string) : bool :=
  match s with
  | EmptyString => true
  | String c r => PyStr.isspace c && all_space r
  end.

Definition starts_with_space (s : string) : bool :=
  match s with
  | String c _ => PyStr.isspace c
  | EmptyString => false
  end.

Fixpoint ends_with_space (s : string) : bool :=
  match s with
  | EmptyString => false
  | String c EmptyString => PyStr.isspace c
  | String _ r => ends_with_space r
  end.

(** [ws] are the words of [s]: [s] is whitespace, then a word, then either
    the end or whitespace followed by the words left. *)
Inductive words_in : list string -> string -> Prop :=
| words_end (s : string) : all_space s = true -> words_in [] s
| words_next (lead w rest : string) (ws : list string) :
    all_space lead = true -> is_word w ->
    starts_with_space rest = true \/ rest = EmptyString ->
    words_in ws rest ->
    words_in (w :: ws) (lead ++ w ++ rest).

Definition stripped_of (content a : string) : Prop :=
  (exists lead trail,
      content = lead ++ a ++ trail
      /\ all_space lead = true /\ all_space trail = true)
  /\ starts_with_space a = false
  /\ ends_with_space a = false.

(** ** Substitutable collaborators with canned answers *)

Module Fake.

Definition is_hex (c : ascii) : bool :=
  let n := N_of_ascii c in
  ((48 <=? n) && (n <=? 57) || (65 <=? n) && (n <=? 70)
   || (97 <=? n) && (n <=? 102))%N.

(** [ObjectId(s)] on a text: 24 hexadecimal characters, or [InvalidId]. *)
Definition ObjectId_of_str (s : string) : reply ObjectId :=
  if (String.length s =? 24)%nat && forallb is_hex (list_ascii_of_string s)
  then inr (PyStr.lower s)
  else inl ("'" ++ s ++ "' is not a valid ObjectId, it must be a 12-byte input or a 24-character hex string").

Definition str_of (v : pyval) : string :=
  match v with
  | PNone => "None"
  | PBool true => "True"
  | PBool false => "False"
  | _ => "<" ++ type_name v ++ ">"
  end.

Definition new_id : ObjectId := "65f0c0ffee0123456789abcd".

(** Collaborators that answer [text] to every extraction, [completion]
    to every completion request, parse every response to [parsed], and
    whose database and mail transport never fail. *)
Definition services (text : reply string) (completion : reply (option string))
    (parsed : option pyval) : Services :=
  {| process_document := fun _ => text;
     summarize_completion := fun _ => completion;
     answer_completion := fun _ _ _ => completion;
     json_loads := fun _ => parsed;
     bson_ObjectId := ObjectId_of_str;
     mongo_insert_one := fun _ _ => inr new_id;
     mongo_find_one_error := fun _ => None;
     mongo_count_error := None;
     mongo_find_error := fun _ _ => None;
     smtp_send := fun _ => inr tt;
     utcnow := 1700000000;
     py_str := str_of;
     str_HTTPException := fun _ detail => detail;
     pydantic_coerce_str := fun _ => None;
     pydantic_error_text := fun _ => "validation error for SummaryResponse";
     SMTP_USER := "notices@example.org" |}.

Definition empty_world : world := {| db := []; trace := [] |}.

Definition dept (name email : pyval) : pyval :=
  PDict (<["name" := name]> (<["email" := email]> ∅)).

Definition answer_json (summary departments : pyval) : pyval :=
  PDict (<["summary" := summary]> (<["departments" := departments]> ∅)).

Definition notice_pdf : UploadFile :=
  {| file_filename := "Notice.PDF"; file_content := [] |}.

Definition minutes_txt : UploadFile :=
  {| file_filename := "minutes.txt"; file_content := [] |}.

(** The text of a JSON string: [s] between double quotes. *)
Definition quoted (s : string) : string :=
  String (ascii_of_nat 34) s ++ String (ascii_of_nat 34) EmptyString.

(** The response text whose "departments" is null. *)
Definition null_departments_raw : string :=
  "{" ++ quoted "summary" ++ ": " ++ quoted "s" ++ ", "
      ++ quoted "departments" ++ ": null}".

Definition null_departments : pyval := answer_json (PStr "s") PNone.

(** A well-formed answer with one department without an address and one
    with an empty address. *)
Definition hr_legal : list pyval :=
  [dept (PStr "HR") PNone; dept (PStr "Legal") (PStr "")].

(** A collection with one record, stored under [new_id]. *)
Definition the_record : document :=
  (new_id,
   {| filename := "Notice.PDF";
      extracted_text := "text of the notice";
      sub_summary := "s";
      departments := [];
      timestamp := 1700000000;
      email_data := [] |}).

Definition one_record : world := {| db := [the_record]; trace := [] |}.

Definition ask (id : string) : ChatRequest :=
  {| mongo_id := id; question := "Who is concerned?" |}.

Definition unknown_id : string := "0123456789abcdef01234567".

(** An answer of 45 words, with blanks around it. *)
Definition words45 : string :=
  "  a01 a02 a03 a04 a05 a06 a07 a08 a09 a10 a11 a12 a13 a14 a15 a16 a17 a18 a19 a20 a21 a22 a23 a24 a25 a26 a27 a28 a29 a30 a31 a32 a33 a34 a35 a36 a37 a38 a39 a40 a41 a42 a43 a44 a45 ".

Definition words30 : string :=
  "a01 a02 a03 a04 a05 a06 a07 a08 a09 a10 a11 a12 a13 a14 a15 a16 a17 a18 a19 a20 a21 a22 a23 a24 a25 a26 a27 a28 a29 a30".

(** A collection of twelve records, uploaded one second apart. *)
Definition uploaded_at (t : Z) : document :=
  (new_id,
   {| filename := "Notice.PDF";
      extracted_text := "text of the notice";
      sub_summary := "s";
      departments := [];
      timestamp := t;
      email_data := [] |}).

Definition twelve_records : world :=
  {| db := map uploaded_at [1; 2; 3; 4; 5; 6; 7; 8; 9; 10; 11; 12];
     trace := [] |}.

(** The same collaborators with a database that refuses every insert. *)
Definition with_insert_error (svc : Services) (msg : string) : Services :=
  {| process_document := process_document svc;
     summarize_completion := summarize_completion svc;
     answer_completion := answer_completion svc;
     json_loads := json_loads svc;
     bson_ObjectId := bson_ObjectId svc;
     mongo_insert_one := fun _ _ => inl msg;
     mongo_find_one_error := mongo_find_one_error svc;
     mongo_count_error := mongo_count_error svc;
     mongo_find_error := mongo_find_error svc;
     smtp_send := smtp_send svc;
     utcnow := utcnow svc;
     py_str := py_str svc;
     str_HTTPException := str_HTTPException svc;
     pydantic_coerce_str := pydantic_coerce_str svc;
     pydantic_error_text := pydantic_error_text svc;
     SMTP_USER := SMTP_USER svc |}.

(** The same collaborators with a mail transport that refuses every
    message. *)
Definition with_smtp_error (svc : Services) (msg : string) : Services :=
  {| process_document := process_document svc;
     summarize_completion := summarize_completion svc;
     answer_completion := answer_completion svc;
     json_loads := json_loads svc;
     bson_ObjectId := bson_ObjectId svc;
     mongo_insert_one := mongo_insert_one svc;
     mongo_find_one_error := mongo_find_one_error svc;
     mongo_count_error := mongo_count_error svc;
     mongo_find_error := mongo_find_error svc;
     smtp_send := fun _ => inl msg;
     utcnow := utcnow svc;
     py_str := py_str svc;
     str_HTTPException := str_HTTPException svc;
     pydantic_coerce_str := pydantic_coerce_str svc;
     pydantic_error_text := pydantic_error_text svc;
     SMTP_USER := SMTP_USER svc |}.

(** A well-formed answer whose departments all have an address. *)
Definition finance_it : list pyval :=
  [dept (PStr "Finance") (PStr "finance@example.org");
   dept (PStr "IT") (PStr "it@example.org")].

(** Collaborators for an upload that goes through. *)
Definition notice_services : Services :=
  services (inr "text of the notice") (inr (Some "raw"))
    (Some (answer_json (PStr "s") (PList finance_it))).

(** Settings and libraries of a deployment that starts. *)
Definition settings : Startup.Settings :=
  {| Startup.GOOGLE_CREDENTIALS_JSON := Some "{credentials}";
     Startup.GOOGLE_PROJECT_ID := Some "project";
     Startup.DOCUMENT_AI_PROCESSOR_ID := Some "processor";
     Startup.AZURE_OPENAI_KEY := Some "key";
     Startup.AZURE_OPENAI_ENDPOINT := Some "https://example.org";
     Startup.SMTP_SERVER := "smtp.gmail.com";
     Startup.SMTP_USER := Some "notices@example.org";
     Startup.SMTP_PASSWORD := Some "password" |}.

(** The same settings without the SMTP password. *)
Definition settings_without_password : Startup.Settings :=
  {| Startup.GOOGLE_CREDENTIALS_JSON := Some "{credentials}";
     Startup.GOOGLE_PROJECT_ID := Some "project";
     Startup.DOCUMENT_AI_PROCESSOR_ID := Some "processor";
     Startup.AZURE_OPENAI_KEY := Some "key";
     Startup.AZURE_OPENAI_ENDPOINT := Some "https://example.org";
     Startup.SMTP_SERVER := "smtp.gmail.com";
     Startup.SMTP_USER := Some "notices@example.org";
     Startup.SMTP_PASSWORD := None |}.

Definition libraries : Startup.Libraries :=
  {| Startup.new_mongo_client := inr tt;
     Startup.server_info := inr tt;
     Startup.json_error_text := fun _ => "Expecting value";
     Startup.new_documentai_client := fun _ => inr tt;
     Startup.new_azure_client := inr tt |}.

Definition parse_credentials (s : string) : option pyval := Some (PDict ∅).

Definition no_clients : Startup.Clients :=
  {| Startup.mongo_client := false;
     Startup.documentai_client := false;
     Startup.azure_openai_client := false |}.

(** A mail library that takes every header value but the recipient "<",
    on which its address parser raises. *)
Definition header_error (name : string) (value : pyval) : option string :=
  match value with
  | PStr s => if String.eqb s "<" then Some "list index out of range" else None
  | _ => None
  end.

(** Three entries, the second with the recipient "<". *)
Definition three_entries : list email_entry :=
  [ {| department := PStr "Finance"; summary := "s";
       subject := "Notice Summary for Finance: Notice.PDF";
       to := PStr "finance@example.org" |};
    {| department := PStr "HR"; summary := "s";
       subject := "Notice Summary for HR: Notice.PDF";
       to := PStr "<" |};
    {| department := PStr "IT"; summary := "s";
       subject := "Notice Summary for IT: Notice.PDF";
       to := PStr "it@example.org" |} ].

(** [bytes.fromhex(s)], given as the hexadecimal text of the bytes read:
    two digits for a byte, ASCII whitespace before a byte skipped. *)
Definition is_ascii_space (c : ascii) : bool :=
  let n := N_of_ascii c in
  ((9 <=? n) && (n <=? 13) || (n =? 32))%N.

Fixpoint fromhex (s : string) : option string :=
  match s with
  | EmptyString => Some EmptyString
  | String c r =>
      if is_ascii_space c then fromhex r
      else
        match r with
        | String d r' =>
            if is_hex c && is_hex d then
              match fromhex r' with
              | Some h =>
                  Some (String (PyStr.lower_char c) (String (PyStr.lower_char d) h))
              | None => None
              end
            else None
        | EmptyString => None
        end
  end.

(** [ObjectId(s)] as the library has it: a text of 24 characters that
    [bytes.fromhex] reads, whatever the number of bytes read. *)
Definition ObjectId_fromhex (s : string) : reply ObjectId :=
  if (String.length s =? 24)%nat then
    match fromhex s with
    | Some h => inr h
    | None =>
        inl ("'" ++ s ++ "' is not a valid ObjectId, it must be a 12-byte input or a 24-character hex string")
    end
  else inl ("'" ++ s ++ "' is not a valid ObjectId, it must be a 12-byte input or a 24-character hex string").

(** The same collaborators with another identifier constructor. *)
Definition with_ObjectId (svc : Services) (ctor : string -> reply ObjectId)
  : Services :=
  {| process_document := process_document svc;
     summarize_completion := summarize_completion svc;
     answer_completion := answer_completion svc;
     json_loads := json_loads svc;
     bson_ObjectId := ctor;
     mongo_insert_one := mongo_insert_one svc;
     mongo_find_one_error := mongo_find_one_error svc;
     mongo_count_error := mongo_count_error svc;
     mongo_find_error := mongo_find_error svc;
     smtp_send := smtp_send svc;
     utcnow := utcnow svc;
     py_str := py_str svc;
     str_HTTPException := str_HTTPException svc;
     pydantic_coerce_str := pydantic_coerce_str svc;
     pydantic_error_text := pydantic_error_text svc;
     SMTP_USER := SMTP_USER svc |}.

(** An identifier of 22 hexadecimal characters and two blanks. *)
Definition blank_padded_id : string := "0123456789abcdef012345  ".

(** A short answer with blanks around it. *)
Definition hi_there : string := "  hi there  ".

End Fake.

(** * Properties *)

(** ** Python strings *)

Module PyStrFacts.
Import PyStr.

Lemma endswith_cons (c : ascii) (s suffix : string) :
  endswith (String c s) suffix =
  if String.eqb (String c s) suffix then true else endswith s suffix.
Proof. reflexivity. Qed.

Lemma endswith_app (p suffix : string) : endswith (p ++ suffix) suffix = true.
Proof.
  induction p as [|c p IH].
  - destruct suffix; simpl; rewrite ?Ascii.eqb_refl, ?String.eqb_refl; reflexivity.
  - change (String c p ++ suffix) with (String c (p ++ suffix)).
    rewrite endswith_cons, IH.
    destruct (String.eqb (String c (p ++ suffix)) suffix); reflexivity.
Qed.

Lemma endswith_inv (s suffix : string) :
  endswith s suffix = true -> exists p, s = p ++ suffix.
Proof.
  induction s as [|c s IH].
  - destruct suffix; simpl; [|discriminate].
    intros _. exists EmptyString. reflexivity.
  - rewrite endswith_cons.
    destruct (String.eqb (String c s) suffix) eqn:E.
    + intros _. apply String.eqb_eq in E. exists EmptyString. now rewrite E.
    + intros H. destruct (IH H) as [p ->]. exists (String c p). reflexivity.
Qed.

Lemma endswith_iff (s suffix : string) :
  endswith s suffix = true <-> exists p, s = p ++ suffix.
Proof.
  split; [apply endswith_inv|]. intros [p ->]. apply endswith_app.
Qed.

Lemma lower_app (a b : string) : lower (a ++ b) = lower a ++ lower b.
Proof. induction a as [|c a IH]; simpl; [|rewrite IH]; reflexivity. Qed.

Lemma lower_app_inv (a b s : string) :
  lower s = a ++ b ->
  exists sa sb, s = sa ++ sb /\ lower sa = a /\ lower sb = b.
Proof.
  revert s. induction a as [|c a IH]; simpl; intros s H.
  - exists EmptyString, s. auto.
  - destruct s as [|x s]; simpl in H; [discriminate|].
    injection H as Hc Hs. destruct (IH s Hs) as (sa & sb & -> & Ha & Hb).
    exists (String x sa), sb. simpl. rewrite Ha, Hc. auto.
Qed.

Ltac by_cases_of c :=
  destruct c as [[] [] [] [] [] [] [] []]; vm_compute;
  split; intros H; try discriminate H; auto;
  destruct H as [H|H]; try discriminate H; auto.

Lemma lower_char_dot (c : ascii) : lower_char c = "."%char <-> c = "."%char.
Proof.
  destruct c as [[] [] [] [] [] [] [] []]; vm_compute;
    split; intros H; try discriminate H; auto.
Qed.

Lemma lower_char_p (c : ascii) :
  lower_char c = "p"%char <-> c = "p"%char \/ c = "P"%char.
Proof. by_cases_of c. Qed.

Lemma lower_char_d (c : ascii) :
  lower_char c = "d"%char <-> c = "d"%char \/ c = "D"%char.
Proof. by_cases_of c. Qed.

Lemma lower_char_f (c : ascii) :
  lower_char c = "f"%char <-> c = "f"%char \/ c = "F"%char.
Proof. by_cases_of c. Qed.

Lemma append_empty_r (s : string) : s ++ EmptyString = s.
Proof.
  induction s as [|c s IH]; [reflexivity|].
  change (String c (s ++ EmptyString) = String c s). now rewrite IH.
Qed.

Lemma append_assoc (a b c : string) : (a ++ b) ++ c = a ++ (b ++ c).
Proof.
  induction a as [|x a IH]; [reflexivity|].
  change (String x ((a ++ b) ++ c) = String x (a ++ (b ++ c))). now rewrite IH.
Qed.

Lemma split_aux_word (w' w rest : string) :
  no_space w' = true ->
  split_aux w (w' ++ rest) = split_aux (w ++ w') rest.
Proof.
  revert w. induction w' as [|c w' IH]; intros w H.
  - rewrite append_empty_r. reflexivity.
  - simpl in H. apply andb_prop in H as [Hc Hw]. apply negb_true_iff in Hc.
    change (String c w' ++ rest) with (String c (w' ++ rest)).
    cbn [split_aux]. rewrite Hc, (IH _ Hw), append_assoc. reflexivity.
Qed.

(** Splitting words joined by single spaces gives the words back. *)
Lemma split_join (ws : list string) :
  Forall is_word ws -> split (join " " ws) = ws.
Proof.
  unfold split. induction ws as [|w ws IH]; [reflexivity|].
  intros H. apply Forall_cons_1 in H as [[Hne Hw] Hws].
  destruct ws as [|x ws].
  - simpl. rewrite <- (append_empty_r w) at 1.
    rewrite (split_aux_word w EmptyString EmptyString Hw).
    change (EmptyString ++ w) with w. simpl. now rewrite Hne.
  - change (join " " (w :: x :: ws)) with (w ++ " " ++ join " " (x :: ws)).
    rewrite (split_aux_word w EmptyString _ Hw).
    change (EmptyString ++ w) with w.
    change (" " ++ join " " (x :: ws)) with (String " "%char (join " " (x :: ws))).
    cbn [split_aux]. change (isspace " "%char) with true. cbv iota.
    rewrite Hne, (IH Hws). reflexivity.
Qed.

End PyStrFacts.

(** ** The monad and the adapters *)

Lemma record_events_nil (w : world) : record_events w [] = w.
Proof. destruct w. unfold record_events. simpl. now rewrite app_nil_r. Qed.

Lemma record_events_app (w : world) (a b : list event) :
  record_events (record_events w a) b = record_events w (a ++ b).
Proof. unfold record_events. simpl. now rewrite app_assoc. Qed.

Lemma emit_events (e : event) (w : world) :
  emit e w = (Ok tt, record_events w [e]).
Proof. reflexivity. Qed.

Ltac run :=
  unfold bind, try_except, try_finally, raise, ret, lift, lift_reply,
    get_db, put_db, emit, record_events;
  simpl; rewrite <- ?app_assoc; simpl.

Section AdapterFacts.

Variable svc : Services.

(** The extraction adapter returns a non-empty text or raises a 500; it
    only calls the extraction service and logs. *)
Lemma extract_text_from_pdf_cases (c : list Byte.byte) (w : world) :
  (exists text,
      process_document svc c = inr text /\ PyStr.is_empty text = false /\
      extract_text_from_pdf svc c w
      = (Ok text, record_events w [CallProcessDocument c]))
  \/ (exists detail,
      (forall text, process_document svc c = inr text ->
                    PyStr.is_empty text = true) /\
      extract_text_from_pdf svc c w
      = (Raise (HTTPException 500 detail),
         record_events w [CallProcessDocument c; Log ERROR])).
Proof.
  unfold extract_text_from_pdf. run.
  destruct (process_document svc c) as [msg|text]; run.
  - right. eexists. split; [discriminate|reflexivity].
  - destruct (PyStr.is_empty text) eqn:E; run.
    + right. eexists. split; [|reflexivity]. now intros ? [= <-].
    + left. eauto.
Qed.

(** The summarization adapter returns the summary and the departments of
    a well-formed answer, or raises a 500; it only calls the completion
    service and logs. *)
Lemma process_with_gpt4o_cases (text : string) (w : world) :
  (exists raw s l,
      summarize_completion svc text = inr (Some raw) /\
      well_formed_answer (json_loads svc raw) s l /\
      process_with_gpt4o svc text w
      = (Ok (PStr s, PList l), record_events w [CallSummarize text]))
  \/ (exists detail evs,
      (forall raw s l, summarize_completion svc text = inr (Some raw) ->
                       ~ well_formed_answer (json_loads svc raw) s l) /\
      Forall is_log evs /\
      process_with_gpt4o svc text w
      = (Raise (HTTPException 500 detail),
         record_events w (CallSummarize text :: evs))).
Proof.
  unfold process_with_gpt4o, well_formed_answer. run.
  destruct (summarize_completion svc text) as [msg|[raw|]]; run;
    [right; do 2 eexists; split; [discriminate|split; [|reflexivity]];
     repeat constructor| |
     right; do 2 eexists; split; [discriminate|split; [|reflexivity]];
     repeat constructor].
  destruct (json_loads svc raw) as [v|] eqn:Ev; run.
  2:{ right. do 2 eexists. split; [|split; [|reflexivity]].
      - intros ? ? ? [= <-] (m & Hm & _). congruence.
      - repeat constructor. }
  assert (Hraw : forall raw', @inr string _ (Some raw) = inr (Some raw') ->
                              json_loads svc raw' = Some v)
    by (intros ? [= <-]; exact Ev).
  destruct v as [|b|z|f|s0|l0|m]; run;
    try (right; do 2 eexists; split; [|split; [|reflexivity]];
         [intros raw' s l E (m' & Hm & _); rewrite (Hraw _ E) in Hm;
          discriminate Hm|repeat constructor]).
  destruct (m !! "summary") as [sv|] eqn:Es; run.
  2:{ right. do 2 eexists. split; [|split; [|reflexivity]].
      - intros raw' s l E (m' & Hm & Hs & _). rewrite (Hraw _ E) in Hm.
        injection Hm as <-. congruence.
      - repeat constructor. }
  destruct (m !! "departments") as [dv|] eqn:Ed; run.
  2:{ right. do 2 eexists. split; [|split; [|reflexivity]].
      - intros raw' s l E (m' & Hm & _ & Hd & _). rewrite (Hraw _ E) in Hm.
        injection Hm as <-. congruence.
      - repeat constructor. }
  destruct sv as [|b|z|f|s|l0|m0]; run;
    try (right; do 2 eexists; split; [|split; [|reflexivity]];
         [intros raw' s' l E (m' & Hm & Hs & _); rewrite (Hraw _ E) in Hm;
          injection Hm as <-; congruence|repeat constructor]).
  destruct dv as [|b|z|f|s0|l|m0]; run;
    try (right; do 2 eexists; split; [|split; [|reflexivity]];
         [intros raw' s' l' E (m' & Hm & _ & Hd & _); rewrite (Hraw _ E) in Hm;
          injection Hm as <-; congruence|repeat constructor]).
  destruct (forallb is_department l) eqn:El; run.
  - left. exists raw, s, l. split; [reflexivity|]. split; [|reflexivity].
    exists m. rewrite Ev. auto.
  - right. do 2 eexists. split; [|split; [|reflexivity]].
    + intros raw' s' l' E (m' & Hm & _ & Hd & Hf). rewrite (Hraw _ E) in Hm.
      injection Hm as <-. congruence.
    + repeat constructor.
Qed.

End AdapterFacts.

(** ** Notification list *)

Section NotificationFacts.

Variable svc : Services.

Lemma prepare_email_data_valid (l : list pyval) (s f : string) :
  forallb is_department l = true ->
  prepare_email_data svc l s f
  = Ok (map (entry_for svc s f)
            (List.filter (fun d => truthy (email_of d)) l)).
Proof.
  induction l as [|d l IH]; simpl; [reflexivity|].
  intros H. apply andb_prop in H as [Hd Hl]. specialize (IH Hl).
  destruct d as [|b|z|x|s0|l0|m]; simpl in Hd; try discriminate Hd.
  apply andb_prop in Hd as [Hn _]. unfold dict_has in Hn.
  simpl. destruct (truthy (dict_get m "email")) eqn:Et; [|exact IH].
  destruct (m !! "name") as [name|] eqn:En; [|discriminate Hn].
  rewrite IH. simpl. unfold entry_for, make_entry. simpl.
  unfold dict_get at 2 3. rewrite En. reflexivity.
Qed.

End NotificationFacts.

(** ** Summarization adapter *)

Lemma forallb_false_witness {A} (p : A -> bool) (l : list A) :
  forallb p l = false <-> exists x, In x l /\ p x = false.
Proof.
  induction l as [|a l IH]; simpl.
  - split; [discriminate|]. now intros (? & [] & _).
  - destruct (p a) eqn:E; simpl.
    + rewrite IH. split.
      * intros (x & Hx & Hp). eauto.
      * intros (x & [<-|Hx] & Hp); [congruence|eauto].
    + split; [|reflexivity]. intros _. exists a. auto.
Qed.

Lemma malformed_iff (parsed : option pyval) :
  malformed parsed <-> forall s l, ~ well_formed_answer parsed s l.
Proof.
  unfold well_formed_answer. split.
  - intros H s l (m & -> & Hs & Hd & Hf). simpl in H.
    rewrite Hs, Hd in H.
    destruct H as [H|[H|[(x & [= <-] & H)|[(d & [= <-] & H)|(l' & el & [= <-] & Hin & H)]]]];
      try discriminate.
    + now apply (H l).
    + assert (forallb is_department l = false)
        by (apply forallb_false_witness; eauto).
      congruence.
  - intros H. destruct parsed as [v|]; [|exact I]. simpl.
    destruct v as [|b|z|x|s0|l0|m]; simpl; auto.
    destruct (m !! "summary") as [sv|] eqn:Es; auto.
    destruct (m !! "departments") as [dv|] eqn:Ed; auto.
    right. right.
    destruct (is_str sv) eqn:Esv; [|left; eauto].
    right.
    destruct sv as [|b|z|x|s|l0|m0]; try discriminate Esv.
    destruct dv as [|b|z|x|s0|l|m0];
      try (left; eexists; split; [reflexivity|intros ?; discriminate]).
    right. destruct (forallb is_department l) eqn:El.
    + exfalso. apply (H s l). eauto.
    + apply forallb_false_witness in El as (el & Hin & Hel). eauto.
Qed.

(** ** Upload handler *)

(** The ingress test of the code is the case-insensitive suffix test. *)
Lemma ingress_check_iff (s : string) :
  PyStr.endswith (PyStr.lower s) ".pdf" = true <-> ends_with_pdf_ci s.
Proof.
  rewrite PyStrFacts.endswith_iff. split.
  - intros [p Hp]. apply PyStrFacts.lower_app_inv in Hp.
    destruct Hp as (sa & sb & -> & _ & Hb).
    destruct sb as [|c0 [|c1 [|c2 [|c3 [|c4 r]]]]]; simpl in Hb; try discriminate Hb.
    injection Hb as H0 H1 H2 H3.
    apply (proj1 (PyStrFacts.lower_char_dot _)) in H0. subst c0.
    exists sa, c1, c2, c3. split; [reflexivity|].
    rewrite <- PyStrFacts.lower_char_p, <- PyStrFacts.lower_char_d,
      <- PyStrFacts.lower_char_f. auto.
  - intros (p & c1 & c2 & c3 & -> & H1 & H2 & H3).
    exists (PyStr.lower p). rewrite PyStrFacts.lower_app. simpl.
    apply (proj2 (PyStrFacts.lower_char_p _)) in H1.
    apply (proj2 (PyStrFacts.lower_char_d _)) in H2.
    apply (proj2 (PyStrFacts.lower_char_f _)) in H3.
    rewrite H1, H2, H3. reflexivity.
Qed.

Section UploadFacts.

Variable svc : Services.

Lemma upload_pdf_rejected (file : UploadFile) (bt : bool) (w : world) :
  PyStr.endswith (PyStr.lower (file_filename file)) ".pdf" = false ->
  upload_pdf svc file bt w
  = (Raise (HTTPException 400 "Only PDF files are allowed"), w).
Proof. intros H. unfold upload_pdf. rewrite H. reflexivity. Qed.

(** When extraction, summarization or validation fails, the handler
    raises a 500 having only called the two services and logged. *)
Lemma upload_pdf_failure (file : UploadFile) (bt : bool) (w : world) :
  PyStr.endswith (PyStr.lower (file_filename file)) ".pdf" = true ->
  processing_fails svc file w ->
  exists detail evs,
    upload_pdf svc file bt w
    = (Raise (HTTPException 500 detail),
       record_events w (CallProcessDocument (file_content file) :: evs))
    /\ Forall is_call_or_log evs.
Proof.
  intros Hpdf Hfail. unfold upload_pdf. rewrite Hpdf. simpl.
  unfold try_finally, try_except, bind at 1.
  destruct (extract_text_from_pdf_cases svc (file_content file) w)
    as [(text & _ & _ & Hx)|(d & _ & Hx)]; rewrite Hx.
  2:{ run. do 2 eexists. split; [reflexivity|]. repeat constructor. }
  unfold bind at 1.
  destruct (process_with_gpt4o_cases svc text
              (record_events w [CallProcessDocument (file_content file)]))
    as [(raw & s & l & _ & (m & _ & _ & _ & Hl) & Hp)|(d & evs & _ & Hlog & Hp)];
    rewrite Hp.
  2:{ run. do 2 eexists. split; [reflexivity|].
      constructor; [exact I|]. apply Forall_app. split.
      - eapply Forall_impl; [exact Hlog|]. now intros [].
      - repeat constructor. }
  exfalso. destruct Hfail as [(e & w1 & H)|[(t & w1 & e & w2 & H1 & H2)
                                           |(t & w1 & s' & d' & w2 & H1 & H2 & H3)]].
  - rewrite Hx in H. discriminate H.
  - rewrite Hx in H1. injection H1 as <- <-. rewrite Hp in H2. discriminate H2.
  - rewrite Hx in H1. injection H1 as <- <-. rewrite Hp in H2.
    injection H2 as <- <- <-. simpl in H3. rewrite Hl in H3.
    destruct H3; discriminate.
Qed.

(** An upload whose text is extracted and whose answer is well formed
    reaches the database; what follows depends on the insert and on the
    response model. *)
Lemma upload_pdf_processed (file : UploadFile) (bt : bool) (w : world)
    (text raw s : string) (l : list pyval) :
  PyStr.endswith (PyStr.lower (file_filename file)) ".pdf" = true ->
  process_document svc (file_content file) = inr text ->
  PyStr.is_empty text = false ->
  summarize_completion svc text = inr (Some raw) ->
  well_formed_answer (json_loads svc raw) s l ->
  let doc := stored_record svc file text s l in
  let called := events_to_insert svc file bt text s l in
  upload_pdf svc file bt w =
  match mongo_insert_one svc (db w) doc with
  | inl msg =>
      (Raise (HTTPException 500 ("Internal server error: " ++ msg)),
       record_events w (called ++ [Log ERROR; FileClose]))
  | inr oid =>
      match mapM (validate_str_dict svc) l with
      | Some ds =>
          (Ok {| sr_filename := file_filename file;
                 sr_departments := ds;
                 sr_summary := s;
                 sr_mongo_id := oid |},
           {| db := db w ++ [(oid, doc)];
              trace := trace w ++ called ++ [FileClose] |})
      | None =>
          (Raise (HTTPException 500
                    ("Internal server error: " ++ pydantic_error_text svc l)),
           {| db := db w ++ [(oid, doc)];
              trace := trace w ++ called ++ [Log ERROR; FileClose] |})
      end
  end.
Proof.
  intros Hpdf Hdoc Hne Hsum (m & Hj & Hs & Hd & Hf) doc called.
  unfold upload_pdf, extract_text_from_pdf, process_with_gpt4o,
    insert_one, new_SummaryResponse.
  rewrite Hpdf. run. rewrite Hdoc. run. rewrite Hne. run.
  rewrite Hsum. run. rewrite Hj. run. rewrite Hs, Hd. run.
  rewrite Hf. run. rewrite ?Hf. run.
  rewrite (prepare_email_data_valid svc l s _ Hf). run.
  subst doc called. unfold events_to_insert, stored_record.
  destruct bt; run;
    (destruct (mongo_insert_one svc (db w) _) as [msg|oid]; run;
     [reflexivity|]);
    destruct (mapM (validate_str_dict svc) l) as [ds|]; run; reflexivity.
Qed.

End UploadFacts.

(** ** Claims on the upload path *)

(** C1.  For every upload in which extraction, summarization or the
    validation of their outputs fails, the handler raises a server error
    (500) without reaching the database insert: the collection is unchanged
    and the events of the request contain neither an insert nor a scheduled
    email batch. *)
Theorem upload_aborts_before_persistence (svc : Services) (file : UploadFile)
    (bt : bool) (w : world) :
  ends_with_pdf_ci (file_filename file) ->
  processing_fails svc file w ->
  exists detail w' evs,
    upload_pdf svc file bt w = (Raise (HTTPException 500 detail), w')
    /\ db w' = db w
    /\ trace w' = (trace w ++ evs)%list
    /\ (forall doc, ~ In (DbInsertOne doc) evs)
    /\ (forall emails, ~ In (AddTask emails) evs).
Proof.
  intros Hpdf Hfail. apply ingress_check_iff in Hpdf.
  destruct (upload_pdf_failure svc file bt w Hpdf Hfail)
    as (detail & evs & Heq & Hevs).
  exists detail, (record_events w (CallProcessDocument (file_content file) :: evs)),
    (CallProcessDocument (file_content file) :: evs).
  repeat split; try assumption; try reflexivity.
  - intros doc [H|H]; [discriminate H|].
    rewrite Forall_forall in Hevs. apply list_elem_of_In in H.
    exact (Hevs _ H).
  - intros emails [H|H]; [discriminate H|].
    rewrite Forall_forall in Hevs. apply list_elem_of_In in H.
    exact (Hevs _ H).
Qed.

Lemma upload_aborts_before_persistence_witness :
  exists detail w' evs,
    upload_pdf (Fake.services (inl "processor unavailable") (inr None) None)
      Fake.notice_pdf true Fake.empty_world
    = (Raise (HTTPException 500 detail), w')
    /\ db w' = db Fake.empty_world
    /\ trace w' = (trace Fake.empty_world ++ evs)%list
    /\ (forall doc, ~ In (DbInsertOne doc) evs)
    /\ (forall emails, ~ In (AddTask emails) evs).
Proof.
  apply upload_aborts_before_persistence.
  - apply ingress_check_iff. reflexivity.
  - left. do 2 eexists. reflexivity.
Defined.

Lemma upload_pdf_accepted (svc : Services) (file : UploadFile) (bt : bool)
    (w : world) :
  PyStr.endswith (PyStr.lower (file_filename file)) ".pdf" = true ->
  exists r w' evs,
    upload_pdf svc file bt w = (r, w')
    /\ trace w' = (trace w ++ CallProcessDocument (file_content file) :: evs)%list
    /\ ((exists resp, r = Ok resp) \/ (exists detail, r = Raise (HTTPException 500 detail))).
Proof.
  intros Hpdf.
  destruct (extract_text_from_pdf_cases svc (file_content file) w)
    as [(text & Hdoc & Hne & Hx)|(d & _ & Hx)].
  2:{ destruct (upload_pdf_failure svc file bt w Hpdf) as (detail & evs & Heq & _).
      { left. eauto. }
      rewrite Heq. do 3 eexists. split; [reflexivity|]. split; [reflexivity|eauto]. }
  destruct (process_with_gpt4o_cases svc text
              (record_events w [CallProcessDocument (file_content file)]))
    as [(raw & s & l & Hsum & Hwf & Hp)|(d & evs & _ & _ & Hp)].
  2:{ destruct (upload_pdf_failure svc file bt w Hpdf) as (detail & evs' & Heq & _).
      { right. left. eauto 10. }
      rewrite Heq. do 3 eexists. split; [reflexivity|]. split; [reflexivity|eauto]. }
  rewrite (upload_pdf_processed svc file bt w text raw s l Hpdf Hdoc Hne Hsum Hwf).
  unfold events_to_insert.
  destruct (mongo_insert_one svc (db w) _) as [msg|oid];
    [|destruct (mapM (validate_str_dict svc) l) as [ds|]];
    do 3 eexists; (split; [reflexivity|]); simpl; (split; [reflexivity|]); eauto.
Qed.

(** C2.  An upload whose filename does not end in ".pdf", compared without
    regard to case, is answered by a 400 and leaves the world as it was (no
    database write, no call at all); an upload whose filename ends in ".pdf"
    in any case passes the ingress check: the extraction service is called
    and the answer is not a 400. *)
Theorem upload_ingress_check (svc : Services) (file : UploadFile) (bt : bool)
    (w : world) :
  (~ ends_with_pdf_ci (file_filename file) ->
   upload_pdf svc file bt w
   = (Raise (HTTPException 400 "Only PDF files are allowed"), w))
  /\ (ends_with_pdf_ci (file_filename file) ->
      exists r w' evs,
        upload_pdf svc file bt w = (r, w')
        /\ trace w'
           = (trace w ++ CallProcessDocument (file_content file) :: evs)%list
        /\ forall detail, r <> Raise (HTTPException 400 detail)).
Proof.
  split.
  - intros H. apply upload_pdf_rejected.
    destruct (PyStr.endswith _ _) eqn:E; [|reflexivity].
    apply ingress_check_iff in E. contradiction.
  - intros H. apply ingress_check_iff in H.
    destruct (upload_pdf_accepted svc file bt w H)
      as (r & w' & evs & Heq & Htr & Hr).
    exists r, w', evs. repeat split; try assumption.
    intros detail ->. destruct Hr as [(? & Hr)|(? & Hr)]; discriminate Hr.
Qed.

Lemma upload_ingress_check_witness :
  upload_pdf (Fake.services (inl "unused") (inr None) None)
    Fake.minutes_txt true Fake.empty_world
  = (Raise (HTTPException 400 "Only PDF files are allowed"), Fake.empty_world)
  /\ exists r w' evs,
      upload_pdf (Fake.services (inl "unused") (inr None) None)
        Fake.notice_pdf true Fake.empty_world = (r, w')
      /\ trace w' = (trace Fake.empty_world
                     ++ CallProcessDocument (file_content Fake.notice_pdf) :: evs)%list
      /\ forall detail, r <> Raise (HTTPException 400 detail).
Proof.
  split.
  - apply (proj1 (upload_ingress_check _ Fake.minutes_txt true Fake.empty_world)).
    intros H. apply ingress_check_iff in H. discriminate H.
  - apply (proj2 (upload_ingress_check _ Fake.notice_pdf true Fake.empty_world)).
    apply ingress_check_iff. reflexivity.
Defined.

(** ** Claims on the notification list and the summarization adapter *)

(** C3, as the code has it.  For validated departments, the notification
    list holds, in order, one entry for each department whose email is true
    as a Python value (neither null nor an empty string, zero, false or an
    empty container), and none for the others; the entry has the subject
    "Notice Summary for {name}: {filename}", the email as recipient and the
    summary as body, and the dispatcher composes its message from exactly
    these. *)
Theorem notification_list_truthy_emails (svc : Services) (l : list pyval)
    (s f : string) :
  forallb is_department l = true ->
  let notified := List.filter (fun d => truthy (email_of d)) l in
  prepare_email_data svc l s f = Ok (map (entry_for svc s f) notified)
  /\ map (compose_message svc) (map (entry_for svc s f) notified)
     = map (fun d =>
              {| msg_From := SMTP_USER svc;
                 msg_To := email_of d;
                 msg_Subject := "Notice Summary for "
                                  ++ format_value svc (name_of d) ++ ": " ++ f;
                 msg_content := s |}) notified
  /\ (forall d, In d l -> email_of d = PNone -> ~ In d notified).
Proof.
  intros Hl notified. split; [exact (prepare_email_data_valid svc l s f Hl)|].
  split.
  - rewrite map_map. reflexivity.
  - intros d _ Hnull Hin. apply filter_In in Hin as [_ Ht].
    rewrite Hnull in Ht. discriminate Ht.
Qed.

Lemma notification_list_truthy_emails_witness :
  let svc := Fake.services (inl "unused") (inr None) None in
  let l := [Fake.dept (PStr "HR") PNone;
            Fake.dept (PStr "Finance") (PStr "finance@example.org")] in
  let notified := List.filter (fun d => truthy (email_of d)) l in
  prepare_email_data svc l "summary" "Notice.PDF"
  = Ok (map (entry_for svc "summary" "Notice.PDF") notified)
  /\ map (compose_message svc) (map (entry_for svc "summary" "Notice.PDF") notified)
     = map (fun d =>
              {| msg_From := SMTP_USER svc;
                 msg_To := email_of d;
                 msg_Subject := "Notice Summary for "
                                  ++ format_value svc (name_of d) ++ ": "
                                  ++ "Notice.PDF";
                 msg_content := "summary" |}) notified
  /\ (forall d, In d l -> email_of d = PNone -> ~ In d notified).
Proof.
  intros svc l.
  apply (notification_list_truthy_emails svc l "summary" "Notice.PDF").
  reflexivity.
Defined.

(** C3 as stated fails: a department whose email is the empty string has a
    non-null email and gets no entry. *)
Lemma notification_list_nonnull_counterexample :
  let svc := Fake.services (inl "unused") (inr None) None in
  let l := [Fake.dept (PStr "Legal") (PStr "")] in
  forallb is_department l = true
  /\ email_of (Fake.dept (PStr "Legal") (PStr "")) <> PNone
  /\ prepare_email_data svc l "summary" "Notice.PDF" = Ok []
  /\ prepare_email_data svc l "summary" "Notice.PDF"
     <> Ok (claimed_email_list svc l "summary" "Notice.PDF").
Proof.
  vm_compute. repeat split; discriminate.
Qed.

(** C4, as the code has it.  Given a response text, the adapter raises a
    server error (500) exactly when the text is not parseable JSON, or the
    parsed value lacks the "summary" or "departments" key (in particular is
    not an object), or "summary" is not a string, or "departments" is not a
    list, or some element of that list is not an object with both "name" and
    "email"; otherwise it returns the summary string and the departments
    list as parsed. *)
Theorem summarization_fails_iff_malformed (svc : Services) (text raw : string)
    (w : world) :
  summarize_completion svc text = inr (Some raw) ->
  ((exists detail w',
       process_with_gpt4o svc text w = (Raise (HTTPException 500 detail), w'))
   <-> malformed (json_loads svc raw))
  /\ (~ malformed (json_loads svc raw) ->
      exists v s l,
        json_loads svc raw = Some v
        /\ value_at v "summary" = Some (PStr s)
        /\ value_at v "departments" = Some (PList l)
        /\ process_with_gpt4o svc text w
           = (Ok (PStr s, PList l), record_events w [CallSummarize text])).
Proof.
  intros Hsum.
  destruct (process_with_gpt4o_cases svc text w)
    as [(raw' & s & l & Hsum' & Hwf & Hp)|(d & evs & Hnwf & _ & Hp)].
  - rewrite Hsum in Hsum'. injection Hsum' as <-. split.
    + split.
      * intros (detail & w' & H). rewrite Hp in H. discriminate H.
      * intros H. rewrite malformed_iff in H. destruct (H s l Hwf).
    + intros _. destruct Hwf as (m & Hj & Hs & Hd & _).
      exists (PDict m), s, l. auto.
  - assert (Hm : malformed (json_loads svc raw))
      by (apply malformed_iff; intros s l; exact (Hnwf raw s l Hsum)).
    split.
    + split; [intros _; exact Hm|intros _; eauto].
    + intros H. destruct (H Hm).
Qed.

Lemma summarization_fails_iff_malformed_witness :
  let svc := Fake.services (inr "text") (inr (Some Fake.null_departments_raw))
               (Some Fake.null_departments) in
  ((exists detail w',
       process_with_gpt4o svc "text" Fake.empty_world
       = (Raise (HTTPException 500 detail), w'))
   <-> malformed (json_loads svc Fake.null_departments_raw))
  /\ (~ malformed (json_loads svc Fake.null_departments_raw) ->
      exists v s l,
        json_loads svc Fake.null_departments_raw = Some v
        /\ value_at v "summary" = Some (PStr s)
        /\ value_at v "departments" = Some (PList l)
        /\ process_with_gpt4o svc "text" Fake.empty_world
           = (Ok (PStr s, PList l),
              record_events Fake.empty_world [CallSummarize "text"])).
Proof.
  intros svc.
  apply (summarization_fails_iff_malformed svc "text" Fake.null_departments_raw).
  reflexivity.
Defined.

(** C4 as stated fails: for a response whose "departments" is null, none of
    the stated conditions holds, and the adapter raises a 500. *)
Lemma summarization_null_departments_counterexample :
  let svc := Fake.services (inr "text") (inr (Some Fake.null_departments_raw))
               (Some Fake.null_departments) in
  ~ claimed_failure (json_loads svc Fake.null_departments_raw)
  /\ exists detail w',
      process_with_gpt4o svc "text" Fake.empty_world
      = (Raise (HTTPException 500 detail), w').
Proof.
  split.
  - intros [H|[H|[(x & H1 & H2)|(l & el & H1 & _)]]].
    + vm_compute in H. discriminate H.
    + vm_compute in H. discriminate H.
    + vm_compute in H1. injection H1 as <-. discriminate H2.
    + vm_compute in H1. discriminate H1.
  - do 2 eexists. vm_compute. reflexivity.
Qed.

(** ** The response model after the insert *)

Lemma validate_str_dict_null_email (svc : Services) (d : pyval) :
  is_department d = true -> email_of d = PNone ->
  validate_str_dict svc d = None.
Proof.
  destruct d as [|b|z|x|s0|l0|m]; simpl; try discriminate.
  intros Hd Hnull. apply andb_prop in Hd as [_ He].
  unfold dict_has in He. unfold dict_get in Hnull.
  destruct (m !! "email") as [v|] eqn:E; [|discriminate He]. subst v.
  rewrite bool_decide_eq_false_2; [reflexivity|].
  intros Hall. specialize (Hall "email" PNone E). simpl in Hall.
  destruct Hall as [? Hall]. discriminate Hall.
Qed.

Lemma mapM_refused {A B} (f : A -> option B) (l : list A) (x : A) :
  In x l -> f x = None -> mapM f l = None.
Proof.
  intros Hin Hx. destruct (mapM f l) as [k|] eqn:E; [|reflexivity].
  assert (Hs : is_Some (mapM f l)) by (rewrite E; eauto).
  apply mapM_is_Some in Hs. rewrite Forall_forall in Hs.
  apply list_elem_of_In in Hin. specialize (Hs x Hin).
  unfold Basics.compose in Hs. rewrite Hx in Hs. destruct Hs as [? Hs]. discriminate Hs.
Qed.

(** C10.  [SummaryResponse] types a department entry as a mapping from
    strings to strings.  For every upload whose answer is well formed and has
    a department with a null email, and whose insert succeeds, the response
    model refuses the departments after the insert: the record is in the
    collection, and the caller receives a server error (500). *)
Theorem null_email_persisted_then_500 (svc : Services) (file : UploadFile)
    (bt : bool) (w : world) (text raw s : string) (l : list pyval)
    (d : pyval) (oid : ObjectId) :
  ends_with_pdf_ci (file_filename file) ->
  process_document svc (file_content file) = inr text ->
  PyStr.is_empty text = false ->
  summarize_completion svc text = inr (Some raw) ->
  well_formed_answer (json_loads svc raw) s l ->
  In d l -> email_of d = PNone ->
  mongo_insert_one svc (db w) (stored_record svc file text s l) = inr oid ->
  exists detail w',
    upload_pdf svc file bt w = (Raise (HTTPException 500 detail), w')
    /\ db w' = (db w ++ [(oid, stored_record svc file text s l)])%list
    /\ In (DbInsertOne (stored_record svc file text s l)) (trace w').
Proof.
  intros Hpdf Hdoc Hne Hsum Hwf Hin Hnull Hins.
  apply ingress_check_iff in Hpdf.
  rewrite (upload_pdf_processed svc file bt w text raw s l Hpdf Hdoc Hne Hsum Hwf).
  rewrite Hins.
  assert (Hd : is_department d = true).
  { destruct Hwf as (m & _ & _ & _ & Hf).
    rewrite forallb_forall in Hf. exact (Hf d Hin). }
  rewrite (mapM_refused _ l d Hin (validate_str_dict_null_email svc d Hd Hnull)).
  do 2 eexists. split; [reflexivity|]. split; [reflexivity|]. simpl.
  unfold events_to_insert. rewrite !in_app_iff. simpl. destruct bt; simpl; tauto.
Qed.

Lemma null_email_persisted_then_500_witness :
  let svc := Fake.services (inr "text of the notice") (inr (Some "raw"))
               (Some (Fake.answer_json (PStr "s") (PList Fake.hr_legal))) in
  exists detail w',
    upload_pdf svc Fake.notice_pdf true Fake.empty_world
    = (Raise (HTTPException 500 detail), w')
    /\ db w' = (db Fake.empty_world
                ++ [(Fake.new_id,
                     stored_record svc Fake.notice_pdf "text of the notice" "s"
                       Fake.hr_legal)])%list
    /\ In (DbInsertOne (stored_record svc Fake.notice_pdf "text of the notice"
                          "s" Fake.hr_legal)) (trace w').
Proof.
  intros svc.
  apply (null_email_persisted_then_500 svc Fake.notice_pdf true Fake.empty_world
           "text of the notice" "raw" "s" Fake.hr_legal
           (Fake.dept (PStr "HR") PNone) Fake.new_id).
  - apply ingress_check_iff. reflexivity.
  - reflexivity.
  - reflexivity.
  - reflexivity.
  - eexists. repeat split; reflexivity.
  - left. reflexivity.
  - reflexivity.
  - reflexivity.
Defined.

(** ** Chat handler *)

Section ChatFacts.

Variable svc : Services.

(** The endpoint returns what [answer_question] returns: its 404 and its
    500 pass through unchanged. *)
Lemma chat_answer_question (req : ChatRequest) (w : world) :
  chat svc req w
  = match answer_question svc (mongo_id req) (question req) w with
    | (Ok a, w') => (Ok {| answer := a |}, w')
    | (Raise (HTTPException c d), w') => (Raise (HTTPException c d), w')
    | (Raise (Exception msg), w') =>
        (Raise (HTTPException 500 ("Internal server error: " ++ msg)),
         record_events w' [Log ERROR])
    end.
Proof.
  unfold chat. run.
  destruct (answer_question svc (mongo_id req) (question req) w) as [[a|[c d|msg]] w'];
    reflexivity.
Qed.

Lemma answer_question_invalid_id (id q msg : string) (w : world) :
  bson_ObjectId svc id = inl msg ->
  answer_question svc id q w
  = (Raise (HTTPException 500 ("Failed to answer question: " ++ msg)),
     record_events w [Log ERROR]).
Proof. intros H. unfold answer_question. run. rewrite H. reflexivity. Qed.

Lemma answer_question_not_found (id q : string) (oid : ObjectId) (w : world) :
  bson_ObjectId svc id = inr oid ->
  mongo_find_one_error svc oid = None ->
  List.find (fun doc => String.eqb (fst doc) oid) (db w) = None ->
  answer_question svc id q w
  = (Raise (HTTPException 404 "Document not found"),
     record_events w [DbFindOne oid; Log ERROR]).
Proof.
  intros Hid Herr Hfind. unfold answer_question, find_one. run.
  rewrite Hid. run. rewrite Herr. run. rewrite Hfind. run. reflexivity.
Qed.

Lemma answer_question_found (id q : string) (oid : ObjectId) (doc : document)
    (content : string) (w : world) :
  bson_ObjectId svc id = inr oid ->
  mongo_find_one_error svc oid = None ->
  List.find (fun doc => String.eqb (fst doc) oid) (db w) = Some doc ->
  answer_completion svc (sub_summary (snd doc)) (extracted_text (snd doc)) q
  = inr (Some content) ->
  let answer := PyStr.strip content in
  let word_count := Z.of_nat (length (PyStr.split answer)) in
  let asked := [DbFindOne oid;
                CallAnswer (sub_summary (snd doc)) (extracted_text (snd doc)) q] in
  answer_question svc id q w
  = if (word_count <? 20) || (word_count >? 30)
    then (Ok (if word_count >? 30
              then PyStr.join " " (take 30 (PyStr.split answer))
              else answer),
          record_events w (asked ++ [Log WARNING]))
    else (Ok answer, record_events w asked).
Proof.
  intros Hid Herr Hfind Hans answer word_count asked.
  unfold answer_question, find_one. run.
  rewrite Hid. run. rewrite Herr. run. rewrite Hfind. run. rewrite Hans. run.
  fold answer. fold word_count.
  destruct ((word_count <? 20) || (word_count >? 30)); run; reflexivity.
Qed.

End ChatFacts.

(** ** The words of an answer *)

Lemma no_space_snoc (w : string) (c : ascii) :
  no_space w = true -> PyStr.isspace c = false ->
  no_space (w ++ String c EmptyString) = true.
Proof.
  intros Hw Hc. induction w as [|x w IH].
  - simpl. now rewrite Hc.
  - simpl in Hw. apply andb_prop in Hw as [Hx Hw].
    change (no_space (String x (w ++ String c EmptyString)) = true).
    simpl. now rewrite Hx, (IH Hw).
Qed.

Lemma split_aux_words (s w : string) :
  no_space w = true -> Forall is_word (PyStr.split_aux w s).
Proof.
  revert w. induction s as [|c s IH]; intros w Hw; simpl.
  - destruct (PyStr.is_empty w) eqn:E; constructor; [split; assumption|constructor].
  - destruct (PyStr.isspace c) eqn:Ec.
    + destruct (PyStr.is_empty w) eqn:E.
      * apply IH. reflexivity.
      * constructor; [split; assumption|]. apply IH. reflexivity.
    + apply IH. apply no_space_snoc; assumption.
Qed.

Lemma split_words (s : string) : Forall is_word (PyStr.split s).
Proof. apply split_aux_words. reflexivity. Qed.

(** Truncating to the first [n] words and splitting again gives those
    words. *)
Lemma split_join_take (n : nat) (s : string) :
  PyStr.split (PyStr.join " " (take n (PyStr.split s))) = take n (PyStr.split s).
Proof.
  apply PyStrFacts.split_join. apply Forall_take. apply split_words.
Qed.

Lemma string_length_app (a b : string) :
  String.length (a ++ b) = (String.length a + String.length b)%nat.
Proof.
  induction a as [|c a IH]; [reflexivity|].
  change (String.length (String c (a ++ b))
          = (S (String.length a) + String.length b)%nat).
  simpl. now rewrite IH.
Qed.

Lemma split_aux_first_word (s w : string) :
  is_word w ->
  exists w' rest,
    s = w' ++ rest
    /\ no_space w' = true
    /\ (starts_with_space rest = true \/ rest = EmptyString)
    /\ PyStr.split_aux w s = (w ++ w') :: PyStr.split_aux EmptyString rest.
Proof.
  revert w. induction s as [|c r IH]; intros w [Hne Hw].
  - exists EmptyString, EmptyString. repeat split; auto.
    simpl. rewrite Hne. now rewrite PyStrFacts.append_empty_r.
  - destruct (PyStr.isspace c) eqn:Ec.
    + exists EmptyString, (String c r). repeat split; auto.
      cbn [PyStr.split_aux]. rewrite Ec, Hne. cbn [PyStr.is_empty].
      now rewrite PyStrFacts.append_empty_r.
    + destruct (IH (w ++ String c EmptyString)) as (w' & rest & Hr & Hw' & Hrest & Hs).
      { split; [|apply no_space_snoc; assumption].
        destruct w; reflexivity. }
      exists (String c w'), rest. split; [|split; [|split; [exact Hrest|]]].
      * change (String c w' ++ rest) with (String c (w' ++ rest)).
        now rewrite <- Hr.
      * simpl. now rewrite Ec, Hw'.
      * cbn [PyStr.split_aux]. rewrite Ec, Hs, PyStrFacts.append_assoc.
        reflexivity.
Qed.

Lemma words_in_space (c : ascii) (ws : list string) (s : string) :
  PyStr.isspace c = true -> words_in ws s -> words_in ws (String c s).
Proof.
  intros Hc H. destruct H as [s Hs|lead w rest ws Hl Hw Hrest Hws].
  - constructor. simpl. now rewrite Hc, Hs.
  - change (String c (lead ++ w ++ rest)) with (String c lead ++ w ++ rest).
    constructor; try assumption. simpl. now rewrite Hc, Hl.
Qed.

(** [split] gives the words of a text. *)
Lemma split_words_in (s : string) : words_in (PyStr.split s) s.
Proof.
  unfold PyStr.split.
  assert (H : forall n s, (String.length s <= n)%nat ->
                          words_in (PyStr.split_aux EmptyString s) s).
  { clear s. induction n as [|n IH]; intros s Hlen.
    - destruct s; [|simpl in Hlen; lia]. constructor. reflexivity.
    - destruct s as [|c r]; [constructor; reflexivity|].
      cbn [PyStr.split_aux PyStr.is_empty].
      destruct (PyStr.isspace c) eqn:Ec.
      + apply words_in_space; [exact Ec|]. apply IH. simpl in Hlen. lia.
      + destruct (split_aux_first_word r (EmptyString ++ String c EmptyString))
          as (w' & rest & Hr & Hw' & Hrest & Hs).
        { split; [reflexivity|]. simpl. now rewrite Ec. }
        rewrite Hs.
        change ((EmptyString ++ String c EmptyString) ++ w') with (String c w').
        replace (String c r) with (EmptyString ++ String c w' ++ rest)
          by (rewrite Hr; reflexivity).
        constructor; [reflexivity| |exact Hrest|].
        * split; [reflexivity|]. simpl. now rewrite Ec, Hw'.
        * apply IH. subst r. simpl in Hlen.
          rewrite string_length_app in Hlen. lia. }
  apply (H (String.length s)). lia.
Qed.

Lemma join_joined (ws : list string) :
  joined_by_spaces ws (PyStr.join " " ws).
Proof.
  induction ws as [|w ws IH]; [constructor|].
  destruct ws as [|x r]; [constructor|].
  change (PyStr.join " " (w :: x :: r))
    with (w ++ String " "%char (PyStr.join " " (x :: r))).
  constructor; [discriminate|exact IH].
Qed.

Lemma lstrip_spec (s : string) :
  exists lead,
    s = lead ++ PyStr.lstrip s
    /\ all_space lead = true
    /\ starts_with_space (PyStr.lstrip s) = false.
Proof.
  induction s as [|c r IH].
  - exists EmptyString. auto.
  - cbn [PyStr.lstrip]. destruct (PyStr.isspace c) eqn:Ec.
    + destruct IH as (lead & Hr & Hl & Hs). exists (String c lead).
      split; [|split; [simpl; now rewrite Ec, Hl|exact Hs]].
      change (String c lead ++ PyStr.lstrip r)
        with (String c (lead ++ PyStr.lstrip r)).
      now rewrite <- Hr.
    + exists EmptyString. split; [reflexivity|]. split; [reflexivity|exact Ec].
Qed.

Lemma rstrip_spec (s : string) :
  exists trail,
    s = PyStr.rstrip s ++ trail
    /\ all_space trail = true
    /\ ends_with_space (PyStr.rstrip s) = false
    /\ (starts_with_space s = false ->
        starts_with_space (PyStr.rstrip s) = false).
Proof.
  induction s as [|c r IH].
  - exists EmptyString. auto.
  - destruct IH as (trail & Hr & Ht & He & _). cbn [PyStr.rstrip]. cbv zeta.
    destruct (PyStr.isspace c && PyStr.is_empty (PyStr.rstrip r)) eqn:E.
    + apply andb_prop in E as [Ec Hempty].
      destruct (PyStr.rstrip r); [|discriminate Hempty].
      exists (String c trail). split; [now rewrite Hr|].
      split; [simpl; now rewrite Ec, Ht|]. split; [reflexivity|].
      simpl. congruence.
    + exists trail.
      split; [change (String c (PyStr.rstrip r) ++ trail)
                with (String c (PyStr.rstrip r ++ trail)); now rewrite <- Hr|].
      split; [exact Ht|]. split; [|auto].
      destruct (PyStr.rstrip r) eqn:Er; [|exact He].
      simpl in *. now rewrite andb_true_r in E.
Qed.

(** [strip] removes the whitespace around a text, and nothing else. *)
Lemma strip_stripped (content : string) :
  stripped_of content (PyStr.strip content).
Proof.
  unfold stripped_of, PyStr.strip.
  destruct (lstrip_spec content) as (lead & Hc & Hl & Hs).
  destruct (rstrip_spec (PyStr.lstrip content)) as (trail & Hr & Ht & He & Hk).
  split; [|split; [exact (Hk Hs)|exact He]].
  exists lead, trail. split; [|auto]. now rewrite <- Hr.
Qed.

(** C5 as stated fails: a short answer with whitespace around it is not
    returned unchanged but stripped. *)
Lemma answer_not_unchanged_counterexample :
  let svc := Fake.services (inl "unused") (inr (Some Fake.hi_there)) None in
  (length (PyStr.split Fake.hi_there) < 20)%nat
  /\ fst (answer_question svc Fake.new_id "Who is concerned?" Fake.one_record)
     = Ok "hi there"
  /\ "hi there" <> Fake.hi_there.
Proof.
  intros svc. split; [|split].
  - apply (proj1 (Nat.ltb_lt _ _)). reflexivity.
  - reflexivity.
  - discriminate.
Qed.

(** C5, as the code has it.  The handler strips the whitespace around the
    model's answer and counts the words of what is left.  An answer of more
    than 30 words is returned as its first 30 words joined by single
    spaces, in particular one of 45 words; an answer of fewer than 20 words
    is returned stripped and otherwise unchanged; in both cases the only
    thing logged is one warning. *)
Theorem answer_word_limit (svc : Services) (id q : string) (oid : ObjectId)
    (doc : document) (content : string) (w : world) :
  bson_ObjectId svc id = inr oid ->
  mongo_find_one_error svc oid = None ->
  List.find (fun d => String.eqb (fst d) oid) (db w) = Some doc ->
  answer_completion svc (sub_summary (snd doc)) (extracted_text (snd doc)) q
  = inr (Some content) ->
  let answer := PyStr.strip content in
  let words := PyStr.split answer in
  let first30 := PyStr.join " " (take 30 words) in
  let asked := [DbFindOne oid;
                CallAnswer (sub_summary (snd doc)) (extracted_text (snd doc)) q] in
  stripped_of content answer
  /\ words_in words answer
  /\ joined_by_spaces (take 30 words) first30
  /\ PyStr.split first30 = take 30 words
  /\ ((30 < length words)%nat ->
      answer_question svc id q w
      = (Ok first30, record_events w (asked ++ [Log WARNING])))
  /\ (length words = 45%nat ->
      answer_question svc id q w
      = (Ok first30, record_events w (asked ++ [Log WARNING])))
  /\ ((length words < 20)%nat ->
      answer_question svc id q w
      = (Ok answer, record_events w (asked ++ [Log WARNING]))).
Proof.
  intros Hid Herr Hfind Hans answer words first30 asked.
  split; [apply strip_stripped|].
  split; [apply split_words_in|].
  split; [apply join_joined|].
  split; [apply split_join_take|].
  pose proof (answer_question_found svc id q oid doc content w Hid Herr Hfind Hans)
    as H.
  cbv zeta in H. fold answer in H. fold words in H. fold first30 in H.
  fold asked in H.
  assert (Hlong : (30 < length words)%nat ->
                  answer_question svc id q w
                  = (Ok first30, record_events w (asked ++ [Log WARNING]))).
  { intros Hn. rewrite H.
    replace (Z.of_nat (length words) >? 30) with true by lia.
    rewrite orb_true_r. reflexivity. }
  split; [exact Hlong|]. split.
  - intros Hn. apply Hlong. lia.
  - intros Hn. rewrite H.
    replace (Z.of_nat (length words) <? 20) with true by lia.
    replace (Z.of_nat (length words) >? 30) with false by lia.
    reflexivity.
Qed.

Lemma answer_word_limit_witness :
  let svc := Fake.services (inl "unused") (inr (Some Fake.words45)) None in
  length (PyStr.split (PyStr.strip Fake.words45)) = 45%nat
  /\ answer_question svc Fake.new_id "Who is concerned?" Fake.one_record
     = (Ok Fake.words30,
        record_events Fake.one_record
          [DbFindOne Fake.new_id;
           CallAnswer "s" "text of the notice" "Who is concerned?";
           Log WARNING]).
Proof.
  intros svc. split; [reflexivity|].
  etransitivity.
  - apply (proj1 (proj2 (proj2 (proj2 (proj2 (proj2
             (answer_word_limit svc Fake.new_id "Who is concerned?"
                Fake.new_id Fake.the_record Fake.words45
                Fake.one_record eq_refl eq_refl eq_refl eq_refl))))))).
    reflexivity.
  - reflexivity.
Defined.

(** The 45-word answer of the fake service comes back as its first 30
    words. *)
Example answer_of_45_words :
  fst (answer_question
         (Fake.services (inl "unused") (inr (Some Fake.words45)) None)
         Fake.new_id "Who is concerned?" Fake.one_record)
  = Ok Fake.words30.
Proof. vm_compute. reflexivity. Qed.

(** C8, as the code has it.  For every chat request whose identifier is a
    valid ObjectId that no stored record has, the lookup succeeding, the
    chat handler answers 404 and does not call the language-model
    service. *)
Theorem chat_unknown_id_404 (svc : Services) (req : ChatRequest)
    (oid : ObjectId) (w : world) :
  bson_ObjectId svc (mongo_id req) = inr oid ->
  mongo_find_one_error svc oid = None ->
  (forall doc, In doc (db w) -> fst doc <> oid) ->
  exists evs,
    chat svc req w
    = (Raise (HTTPException 404 "Document not found"), record_events w evs)
    /\ forall s t q, ~ In (CallAnswer s t q) evs.
Proof.
  intros Hid Herr Hnone.
  exists [DbFindOne oid; Log ERROR]. split.
  - rewrite chat_answer_question.
    rewrite (answer_question_not_found svc _ _ oid w Hid Herr); [reflexivity|].
    match goal with |- ?f = None => destruct f as [doc|] eqn:E end; [|reflexivity].
    apply find_some in E as [Hin Heq]. apply String.eqb_eq in Heq.
    destruct (Hnone doc Hin Heq).
  - intros s t q [H|[H|[]]]; discriminate H.
Qed.

Lemma chat_unknown_id_404_witness :
  exists evs,
    chat (Fake.services (inl "unused") (inr None) None)
      (Fake.ask Fake.unknown_id) Fake.one_record
    = (Raise (HTTPException 404 "Document not found"),
       record_events Fake.one_record evs)
    /\ forall s t q, ~ In (CallAnswer s t q) evs.
Proof.
  apply (chat_unknown_id_404 _ (Fake.ask Fake.unknown_id) Fake.unknown_id).
  - reflexivity.
  - reflexivity.
  - intros doc [<-|[]]. discriminate.
Defined.

(** C8 as stated fails: the identifier "xyz" matches no stored record (the
    collection is empty), and the answer is a 500, not a 404. *)
Lemma chat_malformed_id_counterexample :
  db Fake.empty_world = []
  /\ exists detail w',
      chat (Fake.services (inl "unused") (inr None) None) (Fake.ask "xyz")
        Fake.empty_world
      = (Raise (HTTPException 500 detail), w').
Proof.
  split; [reflexivity|]. do 2 eexists. vm_compute. reflexivity.
Qed.

(** C9 as stated fails: an identifier need not be 24 hexadecimal characters
    for the constructor to take it.  It takes 22 hexadecimal characters
    followed by two blanks; the lookup is then attempted and, no record
    being found, the answer is a 404. *)
Lemma chat_blank_padded_id_counterexample :
  let svc := Fake.with_ObjectId (Fake.services (inl "unused") (inr None) None)
               Fake.ObjectId_fromhex in
  String.length Fake.blank_padded_id = 24%nat
  /\ forallb Fake.is_hex (list_ascii_of_string Fake.blank_padded_id) = false
  /\ chat svc (Fake.ask Fake.blank_padded_id) Fake.empty_world
     = (Raise (HTTPException 404 "Document not found"),
        record_events Fake.empty_world
          [DbFindOne "0123456789abcdef012345"; Log ERROR]).
Proof. vm_compute. repeat split; reflexivity. Qed.

(** C9, as the code has it.  For every chat request whose identifier the
    ObjectId constructor refuses, the constructor raises before any lookup,
    the generic handler turns the exception into a 500, and the answer is
    not a 404: the only event of the request is the error logged. *)
Theorem chat_invalid_id_500 (svc : Services) (req : ChatRequest) (msg : string)
    (w : world) :
  bson_ObjectId svc (mongo_id req) = inl msg ->
  chat svc req w
  = (Raise (HTTPException 500 ("Failed to answer question: " ++ msg)),
     record_events w [Log ERROR])
  /\ (forall detail,
         fst (chat svc req w) <> Raise (HTTPException 404 detail))
  /\ (forall oid, ~ In (DbFindOne oid) [Log ERROR]).
Proof.
  intros Hid.
  assert (H : chat svc req w
              = (Raise (HTTPException 500 ("Failed to answer question: " ++ msg)),
                 record_events w [Log ERROR])).
  { rewrite chat_answer_question.
    rewrite (answer_question_invalid_id svc _ _ msg w Hid). reflexivity. }
  split; [exact H|]. split.
  - intros detail. rewrite H. simpl. discriminate.
  - intros oid [E|[]]. discriminate E.
Qed.

Lemma chat_invalid_id_500_witness :
  exists detail,
    chat (Fake.services (inl "unused") (inr None) None) (Fake.ask "xyz")
      Fake.one_record
    = (Raise (HTTPException 500 detail), record_events Fake.one_record [Log ERROR]).
Proof.
  eexists.
  refine (proj1 (chat_invalid_id_500 _ (Fake.ask "xyz") _ Fake.one_record _)).
  reflexivity.
Defined.

(** ** Listing handler *)

Lemma length_insert_desc (doc : document) (l : list document) :
  length (insert_desc doc l) = S (length l).
Proof.
  induction l as [|x r IH]; simpl; [reflexivity|].
  destruct (timestamp (snd x) <=? timestamp (snd doc)); simpl; [reflexivity|].
  now rewrite IH.
Qed.

Lemma length_sort_desc (l : list document) :
  length (sort_desc l) = length l.
Proof.
  induction l as [|x r IH]; simpl; [reflexivity|].
  now rewrite length_insert_desc, IH.
Qed.

Lemma effective_page_max (page : Z) : effective_page page = Z.max page 1.
Proof. unfold effective_page. destruct (Z.ltb_spec page 1); lia. Qed.

Lemma effective_limit_cases (limit : Z) :
  effective_limit limit = if limit <? 1 then 5 else Z.min limit 50.
Proof.
  unfold effective_limit.
  destruct (Z.ltb_spec limit 1); [reflexivity|].
  destruct (Z.gtb_spec limit 50); lia.
Qed.

Lemma effective_limit_range (limit : Z) : 1 <= effective_limit limit <= 50.
Proof.
  rewrite effective_limit_cases. destruct (Z.ltb_spec limit 1); lia.
Qed.

(** [(total + limit - 1) // limit] is the ceiling of [total / limit]. *)
Lemma ceiling_division (total limit : Z) :
  0 < limit ->
  let pages := (total + limit - 1) / limit in
  (pages - 1) * limit < total <= pages * limit.
Proof.
  intros Hl pages.
  pose proof (Z.div_mod (total + limit - 1) limit ltac:(lia)) as Hdm.
  pose proof (Z.mod_pos_bound (total + limit - 1) limit Hl) as Hb.
  fold pages in Hdm. nia.
Qed.

Section ListingFacts.

Variable svc : Services.

Lemma get_all_documents_ok (page limit : option Z) (w : world) :
  let p := effective_page (default 1 page) in
  let lim := effective_limit (default 5 limit) in
  let skip := (p - 1) * lim in
  let n := Z.of_nat (length (db w)) in
  mongo_count_error svc = None ->
  mongo_find_error svc skip lim = None ->
  get_all_documents svc page limit w
  = (Ok {| data := take (Z.to_nat lim)
                     (drop (Z.to_nat skip) (sort_desc (db w)));
           page := p;
           limit := lim;
           total := n;
           total_pages := (n + lim - 1) / lim;
           has_next := p <? (n + lim - 1) / lim;
           has_prev := p >? 1 |},
     record_events w [DbCountDocuments; DbFind skip lim]).
Proof.
  intros p lim skip n Hcount Hfind.
  pose proof (effective_limit_range (default 5 limit)) as Hlim.
  pose proof (effective_page_max (default 1 page)) as Hp.
  fold lim in Hlim. fold p in Hp.
  unfold get_all_documents, count_documents, find_page.
  fold p. fold lim. fold skip. run. rewrite Hcount. run.
  replace (skip <? 0) with false by (unfold skip; nia).
  run. rewrite Hfind. run.
  replace (lim =? 0) with false by lia.
  replace (Z.abs lim) with lim by lia.
  reflexivity.
Qed.

End ListingFacts.

(** C6, as the code has it.  The effective page is max(page, 1).  The
    effective limit is the limit itself when it lies in [1, 50], 50 when it
    exceeds 50, and the default page size 5 when it is below 1; a request
    without the parameters gets page 1 and limit 5. *)
Theorem listing_effective_parameters (svc : Services) (pg lm : option Z)
    (w : world) :
  mongo_count_error svc = None ->
  (forall skip lim, mongo_find_error svc skip lim = None) ->
  exists r w',
    get_all_documents svc pg lm w = (Ok r, w')
    /\ page r = Z.max (default 1 pg) 1
    /\ limit r = (let l := default 5 lm in
                  if l <? 1 then 5 else Z.min l 50)
    /\ 1 <= limit r <= 50.
Proof.
  intros Hcount Hfind.
  rewrite (get_all_documents_ok svc pg lm w Hcount (Hfind _ _)).
  do 2 eexists. split; [reflexivity|]. simpl.
  split; [apply effective_page_max|].
  split; [apply effective_limit_cases|apply effective_limit_range].
Qed.

Lemma listing_effective_parameters_witness :
  exists r w',
    get_all_documents (Fake.services (inl "unused") (inr None) None)
      (Some (-3)) (Some 80) Fake.twelve_records = (Ok r, w')
    /\ page r = 1 /\ limit r = 50 /\ 1 <= limit r <= 50.
Proof.
  apply (listing_effective_parameters
           (Fake.services (inl "unused") (inr None) None)
           (Some (-3)) (Some 80) Fake.twelve_records).
  - reflexivity.
  - intros skip lim. reflexivity.
Defined.

(** C6 as stated fails: a limit of 0 becomes 5, while its clamp into
    [1, 50] is 1. *)
Lemma listing_limit_zero_counterexample :
  exists r w',
    get_all_documents (Fake.services (inl "unused") (inr None) None)
      (Some 1) (Some 0) Fake.twelve_records = (Ok r, w')
    /\ limit r = 5
    /\ limit r <> clamp 1 50 0.
Proof.
  do 2 eexists. split; [vm_compute; reflexivity|].
  split; [reflexivity|]. vm_compute. discriminate.
Qed.

(** C7.  For every collection and every page and limit, the listing returns
    total_pages equal to the ceiling of total / limit, has_next equal to
    (page < total_pages), has_prev equal to (page > 1), and the records of
    the newest-first collection after skipping (page - 1) * limit, at most
    limit of them; with 12 records, page 2 and limit 5 it returns 5
    records, total_pages = 3, has_next and has_prev true. *)
Theorem listing_pagination (svc : Services) (pg lm : option Z) (w : world) :
  mongo_count_error svc = None ->
  (forall skip lim, mongo_find_error svc skip lim = None) ->
  exists r w',
    get_all_documents svc pg lm w = (Ok r, w')
    /\ page r = effective_page (default 1 pg)
    /\ limit r = effective_limit (default 5 lm)
    /\ total r = Z.of_nat (length (db w))
    /\ (total_pages r - 1) * limit r < total r <= total_pages r * limit r
    /\ has_next r = (page r <? total_pages r)
    /\ has_prev r = (1 <? page r)
    /\ data r = take (Z.to_nat (limit r))
                  (drop (Z.to_nat ((page r - 1) * limit r)) (sort_desc (db w)))
    /\ Z.of_nat (length (data r)) <= limit r
    /\ (length (db w) = 12%nat -> pg = Some 2 -> lm = Some 5 ->
        length (data r) = 5%nat /\ total_pages r = 3
        /\ has_next r = true /\ has_prev r = true).
Proof.
  intros Hcount Hfind.
  rewrite (get_all_documents_ok svc pg lm w Hcount (Hfind _ _)).
  pose proof (effective_limit_range (default 5 lm)) as Hlim.
  do 2 eexists. split; [reflexivity|]. simpl.
  repeat (split; [reflexivity|]).
  split; [apply ceiling_division; lia|].
  split; [reflexivity|].
  split; [apply Z.gtb_ltb|].
  split; [reflexivity|].
  split; [rewrite length_take; lia|].
  intros H12 -> ->. simpl.
  rewrite length_take, length_drop, length_sort_desc, H12.
  repeat split; reflexivity.
Qed.

Lemma listing_pagination_witness :
  exists r w',
    get_all_documents (Fake.services (inl "unused") (inr None) None)
      (Some 2) (Some 5) Fake.twelve_records = (Ok r, w')
    /\ length (data r) = 5%nat /\ total_pages r = 3
    /\ has_next r = true /\ has_prev r = true.
Proof.
  destruct (listing_pagination (Fake.services (inl "unused") (inr None) None)
              (Some 2) (Some 5) Fake.twelve_records eq_refl
              (fun _ _ => eq_refl))
    as (r & w' & Heq & _ & _ & _ & _ & _ & _ & _ & _ & H12).
  exists r, w'. split; [exact Heq|].
  apply H12; reflexivity.
Defined.

(** * Further properties of the handlers *)

(** ** The order of the listing *)

Lemma insert_desc_perm (doc : document) (l : list document) :
  Permutation (insert_desc doc l) (doc :: l).
Proof.
  induction l as [|x r IH]; simpl; [reflexivity|].
  destruct (timestamp (snd x) <=? timestamp (snd doc)); [reflexivity|].
  rewrite IH. apply perm_swap.
Qed.

Lemma sort_desc_perm (l : list document) : Permutation (sort_desc l) l.
Proof.
  induction l as [|x r IH]; simpl; [reflexivity|].
  rewrite insert_desc_perm. now rewrite IH.
Qed.

Lemma insert_desc_sorted (doc : document) (l : list document) :
  StronglySorted not_older l -> StronglySorted not_older (insert_desc doc l).
Proof.
  induction l as [|x r IH]; simpl; intros Hs.
  - constructor; constructor.
  - apply StronglySorted_inv in Hs as [Hr Hx].
    destruct (Z.leb_spec (timestamp (snd x)) (timestamp (snd doc))).
    + constructor; [constructor; assumption|].
      constructor; [unfold not_older; lia|].
      eapply Forall_impl; [exact Hx|]. unfold not_older. intros; lia.
    + constructor; [apply IH; exact Hr|].
      rewrite (insert_desc_perm doc r).
      constructor; [unfold not_older; lia|exact Hx].
Qed.

(** [sort_desc] keeps every record of the collection exactly once and puts
    no record before a newer one. *)
Lemma sort_desc_newest_first (l : list document) :
  Permutation (sort_desc l) l /\ StronglySorted not_older (sort_desc l).
Proof.
  split; [apply sort_desc_perm|].
  induction l as [|x r IH]; simpl; [constructor|].
  apply insert_desc_sorted. exact IH.
Qed.

(** Records of equal time stay in their order of insertion. *)
Example sort_desc_equal_times :
  map fst (sort_desc [("a", snd (Fake.uploaded_at 5));
                      ("b", snd (Fake.uploaded_at 7));
                      ("c", snd (Fake.uploaded_at 5));
                      ("d", snd (Fake.uploaded_at 5))])
  = ["b"; "a"; "c"; "d"].
Proof. reflexivity. Qed.

(** Cutting a list into consecutive chunks of [n] and gluing them back. *)
Lemma chunks_concat {A} (n : nat) (xs : list A) (k : nat) :
  (0 < n)%nat -> (length xs <= k * n)%nat ->
  concat (map (fun i => take n (drop (i * n) xs)) (seq 0 k)) = xs.
Proof.
  intros Hn. revert xs. induction k as [|k IH]; intros xs Hlen.
  - destruct xs; [reflexivity|simpl in Hlen; lia].
  - rewrite <- cons_seq. simpl. rewrite <- seq_shift, map_map.
    transitivity (take n xs ++ drop n xs)%list; [|apply take_drop].
    f_equal.
    etransitivity; [|apply (IH (drop n xs)); rewrite length_drop; lia].
    f_equal. apply map_ext. intros i. rewrite drop_drop.
    f_equal; lia.
Qed.

(** ** Pages of the listing *)

Section ListingPages.

Variable svc : Services.
Hypothesis count_ok : mongo_count_error svc = None.
Hypothesis find_ok : forall skip lim, mongo_find_error svc skip lim = None.

Lemma effective_limit_id (lim : Z) : 1 <= lim <= 50 -> effective_limit lim = lim.
Proof. intros H. rewrite effective_limit_cases. destruct (Z.ltb_spec lim 1); lia. Qed.

Lemma page_data_chunk (w : world) (lim : Z) (i : nat) :
  1 <= lim <= 50 ->
  page_data svc w lim (S i)
  = take (Z.to_nat lim) (drop (i * Z.to_nat lim) (sort_desc (db w))).
Proof.
  intros Hlim. unfold page_data.
  rewrite (get_all_documents_ok svc _ _ w count_ok (find_ok _ _)). simpl.
  rewrite (effective_limit_id lim Hlim), effective_page_max.
  do 2 f_equal. nia.
Qed.

Lemma page_data_concat (w : world) (lim : Z) :
  1 <= lim <= 50 ->
  let pages := Z.to_nat ((Z.of_nat (length (db w)) + lim - 1) / lim) in
  concat (map (page_data svc w lim) (seq 1 pages)) = sort_desc (db w).
Proof.
  intros Hlim pages.
  rewrite <- seq_shift, map_map.
  rewrite (map_ext _ (fun i => take (Z.to_nat lim)
                                 (drop (i * Z.to_nat lim) (sort_desc (db w)))))
    by (intros i; apply page_data_chunk; exact Hlim).
  apply chunks_concat; [lia|].
  rewrite length_sort_desc.
  pose proof (ceiling_division (Z.of_nat (length (db w))) lim ltac:(lia)) as Hc.
  cbv zeta in Hc. unfold pages. nia.
Qed.

(** X2.  Paging through a listing returns as many records as it counts:
    for a limit between 1 and 50, the sizes of pages 1 to total_pages add
    up to the total, and every later page is empty. *)
Theorem listing_pages_total (w : world) (lim : Z) :
  1 <= lim <= 50 ->
  let pages := Z.to_nat ((Z.of_nat (length (db w)) + lim - 1) / lim) in
  list_sum (map (fun k => length (page_data svc w lim k)) (seq 1 pages))
  = length (db w)
  /\ (forall k, (pages < k)%nat -> page_data svc w lim k = []).
Proof.
  intros Hlim pages. split.
  - rewrite <- (map_map (page_data svc w lim) (@length document)).
    rewrite <- length_concat.
    unfold pages. rewrite (page_data_concat w lim Hlim).
    apply length_sort_desc.
  - intros k Hk. destruct k as [|i]; [lia|].
    rewrite (page_data_chunk w lim i Hlim).
    rewrite drop_ge; [now destruct (Z.to_nat lim)|].
    rewrite length_sort_desc.
    pose proof (ceiling_division (Z.of_nat (length (db w))) lim ltac:(lia)) as Hc.
    cbv zeta in Hc. unfold pages in Hk. nia.
Qed.

Lemma StronglySorted_drop {A} (R : A -> A -> Prop) (n : nat) (l : list A) :
  StronglySorted R l -> StronglySorted R (drop n l).
Proof.
  revert l. induction n as [|n IH]; intros l H; [exact H|].
  destruct l as [|x l]; [exact H|]. simpl.
  apply IH. now apply StronglySorted_inv in H.
Qed.

Lemma StronglySorted_take {A} (R : A -> A -> Prop) (n : nat) (l : list A) :
  StronglySorted R l -> StronglySorted R (take n l).
Proof.
  revert l. induction n as [|n IH]; intros l H; [constructor|].
  destruct l as [|x l]; [constructor|]. simpl.
  apply StronglySorted_inv in H as [Hl Hx].
  constructor; [apply IH; exact Hl|].
  rewrite Forall_forall in *. intros y Hy. apply Hx.
  exact (subseteq_take n l y Hy).
Qed.

(** X1.  The order of a page: the records of every page are records of the
    collection, newest first (no record stands before a newer one). *)
Theorem listing_newest_first (pg lm : option Z) (w : world) :
  exists r w',
    get_all_documents svc pg lm w = (Ok r, w')
    /\ StronglySorted not_older (data r)
    /\ (forall doc, In doc (data r) -> In doc (db w)).
Proof.
  rewrite (get_all_documents_ok svc pg lm w count_ok (find_ok _ _)).
  do 2 eexists. split; [reflexivity|]. simpl. split.
  - apply StronglySorted_take, StronglySorted_drop, sort_desc_newest_first.
  - intros doc Hin. apply list_elem_of_In in Hin.
    apply subseteq_take, subseteq_drop in Hin.
    rewrite sort_desc_perm in Hin. now apply list_elem_of_In.
Qed.

(** X3.  The flags of a page: has_next holds exactly when records remain
    after the page, has_prev exactly when the page is not the first; and
    the page holds the records left after the skip, at most limit. *)
Theorem listing_flags_and_count (pg lm : option Z) (w : world) :
  exists r w',
    get_all_documents svc pg lm w = (Ok r, w')
    /\ (has_next r = true <-> page r * limit r < total r)
    /\ (has_prev r = true <-> 1 < page r)
    /\ Z.of_nat (length (data r))
       = Z.max 0 (Z.min (limit r) (total r - (page r - 1) * limit r))
    /\ db w' = db w.
Proof.
  rewrite (get_all_documents_ok svc pg lm w count_ok (find_ok _ _)).
  pose proof (effective_limit_range (default 5 lm)) as Hlim.
  pose proof (effective_page_max (default 1 pg)) as Hpg.
  do 2 eexists. split; [reflexivity|]. simpl.
  set (p := effective_page (default 1 pg)) in *.
  set (l := effective_limit (default 5 lm)) in *.
  set (n := Z.of_nat (length (db w))).
  pose proof (ceiling_division n l ltac:(lia)) as Hc. cbv zeta in Hc.
  split; [|split; [|split; [|reflexivity]]].
  - rewrite Z.ltb_lt. split; intros H; nia.
  - rewrite Z.gtb_ltb, Z.ltb_lt. reflexivity.
  - rewrite length_take, length_drop, length_sort_desc.
    assert (Hs : 0 <= (p - 1) * l) by nia.
    generalize dependent ((p - 1) * l). intros skip Hs. unfold n. lia.
Qed.

End ListingPages.

Lemma listing_pages_total_witness :
  list_sum (map (fun k => length (page_data
                                    (Fake.services (inl "unused") (inr None) None)
                                    Fake.twelve_records 5 k)) (seq 1 3))
  = length (db Fake.twelve_records)
  /\ (forall k, (3 < k)%nat ->
        page_data (Fake.services (inl "unused") (inr None) None)
          Fake.twelve_records 5 k = []).
Proof.
  apply (listing_pages_total (Fake.services (inl "unused") (inr None) None)
           eq_refl (fun _ _ => eq_refl) Fake.twelve_records 5).
  lia.
Defined.

Lemma listing_newest_first_witness :
  exists r w',
    get_all_documents (Fake.services (inl "unused") (inr None) None)
      (Some 2) (Some 5) Fake.twelve_records = (Ok r, w')
    /\ StronglySorted not_older (data r)
    /\ (forall doc, In doc (data r) -> In doc (db Fake.twelve_records)).
Proof.
  apply (listing_newest_first (Fake.services (inl "unused") (inr None) None)
           eq_refl (fun _ _ => eq_refl)).
Defined.

Lemma listing_flags_and_count_witness :
  exists r w',
    get_all_documents (Fake.services (inl "unused") (inr None) None)
      (Some 3) (Some 5) Fake.twelve_records = (Ok r, w')
    /\ (has_next r = true <-> page r * limit r < total r)
    /\ (has_prev r = true <-> 1 < page r)
    /\ Z.of_nat (length (data r))
       = Z.max 0 (Z.min (limit r) (total r - (page r - 1) * limit r))
    /\ db w' = db Fake.twelve_records.
Proof.
  apply (listing_flags_and_count (Fake.services (inl "unused") (inr None) None)
           eq_refl (fun _ _ => eq_refl)).
Defined.

(** ** Every path of the query handler *)

Section ChatPaths.

Variable svc : Services.

Lemma answer_question_lookup_error (id q : string) (oid : ObjectId)
    (msg : string) (w : world) :
  bson_ObjectId svc id = inr oid ->
  mongo_find_one_error svc oid = Some msg ->
  answer_question svc id q w
  = (Raise (HTTPException 500 ("Failed to answer question: " ++ msg)),
     record_events w [DbFindOne oid; Log ERROR]).
Proof.
  intros Hid Herr. unfold answer_question, find_one. run.
  rewrite Hid. run. rewrite Herr. run. reflexivity.
Qed.

Lemma answer_question_no_answer (id q : string) (oid : ObjectId)
    (doc : document) (w : world) :
  bson_ObjectId svc id = inr oid ->
  mongo_find_one_error svc oid = None ->
  List.find (fun doc => String.eqb (fst doc) oid) (db w) = Some doc ->
  (forall content,
      answer_completion svc (sub_summary (snd doc)) (extracted_text (snd doc)) q
      <> inr (Some content)) ->
  exists detail,
    answer_question svc id q w
    = (Raise (HTTPException 500 detail),
       record_events w
         [DbFindOne oid;
          CallAnswer (sub_summary (snd doc)) (extracted_text (snd doc)) q;
          Log ERROR]).
Proof.
  intros Hid Herr Hfind Hno. unfold answer_question, find_one. run.
  rewrite Hid. run. rewrite Herr. run. rewrite Hfind. run.
  destruct (answer_completion svc _ _ q) as [msg|[content|]]; run.
  - eexists. reflexivity.
  - destruct (Hno content eq_refl).
  - eexists. reflexivity.
Qed.

Lemma answer_question_path (id q : string) (w : world) :
  answer_path svc id q w (answer_question svc id q w).
Proof.
  destruct (bson_ObjectId svc id) as [msg|oid] eqn:Hid.
  { rewrite (answer_question_invalid_id svc id q msg w Hid). now constructor. }
  destruct (mongo_find_one_error svc oid) as [msg|] eqn:Herr.
  { rewrite (answer_question_lookup_error id q oid msg w Hid Herr).
    now constructor. }
  destruct (List.find (fun doc => String.eqb (fst doc) oid) (db w))
    as [doc|] eqn:Hfind.
  2:{ rewrite (answer_question_not_found svc id q oid w Hid Herr Hfind).
      now constructor. }
  destruct (answer_completion svc (sub_summary (snd doc))
              (extracted_text (snd doc)) q) as [msg|[content|]] eqn:Hans.
  - assert (Hno : forall c,
               answer_completion svc (sub_summary (snd doc))
                 (extracted_text (snd doc)) q <> inr (Some c))
      by (intros c; rewrite Hans; discriminate).
    destruct (answer_question_no_answer id q oid doc w Hid Herr Hfind Hno)
      as [detail ->].
    now apply path_no_answer.
  - rewrite (answer_question_found svc id q oid doc content w Hid Herr Hfind Hans).
    now apply path_answer.
  - assert (Hno : forall c,
               answer_completion svc (sub_summary (snd doc))
                 (extracted_text (snd doc)) q <> inr (Some c))
      by (intros c; rewrite Hans; discriminate).
    destruct (answer_question_no_answer id q oid doc w Hid Herr Hfind Hno)
      as [detail ->].
    now apply path_no_answer.
Qed.

End ChatPaths.

(** ** What the query and listing handlers never do *)

Lemma answer_question_db (svc : Services) (id q : string) (w : world) :
  db (snd (answer_question svc id q w)) = db w.
Proof.
  destruct (answer_question_path svc id q w) as [| | | |oid doc content ? ? ? ? a n asked];
    try reflexivity.
  destruct ((n <? 20) || (n >? 30)); reflexivity.
Qed.

(** X4.  The chat and listing handlers are read-only: whatever the
    request and whatever the collaborators answer, the collection after the
    request is the collection before it. *)
Theorem query_handlers_read_only (svc : Services) :
  (forall req w, db (snd (chat svc req w)) = db w)
  /\ (forall pg lm w, db (snd (get_all_documents svc pg lm w)) = db w).
Proof.
  split.
  - intros req w. rewrite chat_answer_question.
    pose proof (answer_question_db svc (mongo_id req) (question req) w) as H.
    destruct (answer_question svc (mongo_id req) (question req) w)
      as [[a|[c d|msg]] w']; exact H.
  - intros pg lm w. unfold get_all_documents, count_documents, find_page. run.
    destruct (mongo_count_error svc); run; [reflexivity|].
    destruct (_ <? 0); run; [reflexivity|].
    destruct (mongo_find_error svc _ _); run; reflexivity.
Qed.

(** X5.  The errors of the chat endpoint: every error is a 500, except the
    404 "Document not found", which is answered only for an identifier the
    ObjectId constructor accepts and that no stored record has. *)
Theorem chat_error_statuses (svc : Services) (req : ChatRequest) (w w' : world)
    (e : exn) :
  chat svc req w = (Raise e, w') ->
  (exists detail, e = HTTPException 500 detail)
  \/ (e = HTTPException 404 "Document not found"
      /\ exists oid,
          bson_ObjectId svc (mongo_id req) = inr oid
          /\ List.find (fun doc => String.eqb (fst doc) oid) (db w) = None).
Proof.
  rewrite chat_answer_question.
  destruct (answer_question_path svc (mongo_id req) (question req) w)
    as [| |oid| |oid doc content ? ? ? ? a n asked];
    try (intros [= <- <-]; eauto).
  destruct ((n <? 20) || (n >? 30)); discriminate.
Qed.

Lemma chat_error_statuses_witness :
  (exists detail, HTTPException 404 "Document not found" = HTTPException 500 detail)
  \/ (HTTPException 404 "Document not found"
      = HTTPException 404 "Document not found"
      /\ exists oid,
          bson_ObjectId (Fake.services (inl "unused") (inr None) None)
            (mongo_id (Fake.ask Fake.unknown_id)) = inr oid
          /\ List.find (fun doc => String.eqb (fst doc) oid)
               (db Fake.one_record) = None).
Proof.
  apply (chat_error_statuses (Fake.services (inl "unused") (inr None) None)
           (Fake.ask Fake.unknown_id) Fake.one_record
           (record_events Fake.one_record
              [DbFindOne Fake.unknown_id; Log ERROR])).
  reflexivity.
Defined.

(** X6.  The answer [answer_question] returns never has more than 30
    words. *)
Theorem answer_at_most_30_words (svc : Services) (id q a : string)
    (w w' : world) :
  answer_question svc id q w = (Ok a, w') ->
  (length (PyStr.split a) <= 30)%nat.
Proof.
  destruct (answer_question_path svc id q w)
    as [| | | |oid doc content ? ? ? ? answer n asked]; try discriminate.
  destruct (Z.ltb_spec n 20) as [Hlt|Hge]; simpl.
  - destruct (Z.gtb_spec n 30); [lia|]. intros [= <- _]. unfold n in Hlt. lia.
  - destruct (Z.gtb_spec n 30) as [Hgt|Hle]; intros [= <- _].
    + rewrite split_join_take, length_take. lia.
    + unfold n in Hle. lia.
Qed.

Lemma answer_at_most_30_words_witness :
  (length (PyStr.split Fake.words30) <= 30)%nat.
Proof.
  apply (answer_at_most_30_words
           (Fake.services (inl "unused") (inr (Some Fake.words45)) None)
           Fake.new_id "Who is concerned?" Fake.words30 Fake.one_record
           (record_events Fake.one_record
              [DbFindOne Fake.new_id;
               CallAnswer "s" "text of the notice" "Who is concerned?";
               Log WARNING])).
  vm_compute. reflexivity.
Defined.

(** X7.  An answer of 20 to 30 words is returned as it is and nothing is
    logged. *)
Theorem answer_in_range_unchanged (svc : Services) (id q : string)
    (oid : ObjectId) (doc : document) (content : string) (w : world) :
  bson_ObjectId svc id = inr oid ->
  mongo_find_one_error svc oid = None ->
  List.find (fun d => String.eqb (fst d) oid) (db w) = Some doc ->
  answer_completion svc (sub_summary (snd doc)) (extracted_text (snd doc)) q
  = inr (Some content) ->
  (20 <= length (PyStr.split (PyStr.strip content)) <= 30)%nat ->
  answer_question svc id q w
  = (Ok (PyStr.strip content),
     record_events w
       [DbFindOne oid;
        CallAnswer (sub_summary (snd doc)) (extracted_text (snd doc)) q]).
Proof.
  intros Hid Herr Hfind Hans Hn.
  rewrite (answer_question_found svc id q oid doc content w Hid Herr Hfind Hans).
  cbv zeta.
  replace (Z.of_nat (length (PyStr.split (PyStr.strip content))) <? 20)
    with false by lia.
  replace (Z.of_nat (length (PyStr.split (PyStr.strip content))) >? 30)
    with false by lia.
  reflexivity.
Qed.

Lemma answer_in_range_unchanged_witness :
  answer_question (Fake.services (inl "unused") (inr (Some Fake.words30)) None)
    Fake.new_id "Who is concerned?" Fake.one_record
  = (Ok (PyStr.strip Fake.words30),
     record_events Fake.one_record
       [DbFindOne Fake.new_id;
        CallAnswer (sub_summary (snd Fake.the_record))
          (extracted_text (snd Fake.the_record)) "Who is concerned?"]).
Proof.
  apply (answer_in_range_unchanged
           (Fake.services (inl "unused") (inr (Some Fake.words30)) None)
           Fake.new_id "Who is concerned?" Fake.new_id Fake.the_record
           Fake.words30 Fake.one_record eq_refl eq_refl eq_refl eq_refl).
  vm_compute. split; apply Nat.leb_le; reflexivity.
Defined.

(** ** The adapters *)

Section AdapterDetails.

Variable svc : Services.

(** X8.  The extraction adapter returns a text exactly when the service
    returns a non-empty one, and then returns that text after one call; an
    empty text is a 500 "Failed to extract text from PDF: No text extracted
    from the document", a failing service a 500 with the service's text. *)
Theorem extraction_outcomes (c : list Byte.byte) (w : world) :
  (forall text w',
      extract_text_from_pdf svc c w = (Ok text, w')
      <-> process_document svc c = inr text
          /\ PyStr.is_empty text = false
          /\ w' = record_events w [CallProcessDocument c])
  /\ (process_document svc c = inr EmptyString ->
      extract_text_from_pdf svc c w
      = (Raise (HTTPException 500
                  "Failed to extract text from PDF: No text extracted from the document"),
         record_events w [CallProcessDocument c; Log ERROR]))
  /\ (forall msg,
         process_document svc c = inl msg ->
         extract_text_from_pdf svc c w
         = (Raise (HTTPException 500 ("Failed to extract text from PDF: " ++ msg)),
            record_events w [CallProcessDocument c; Log ERROR])).
Proof.
  unfold extract_text_from_pdf. run. split; [|split].
  - intros text w'. destruct (process_document svc c) as [msg|t]; run.
    + split; [discriminate|]. intros [H _]. discriminate H.
    + destruct (PyStr.is_empty t) eqn:E; run.
      * split; [discriminate|]. intros ([= <-] & H & _). congruence.
      * split.
        -- intros [= <- <-]. auto.
        -- intros ([= <-] & _ & ->). reflexivity.
  - intros ->. run. reflexivity.
  - intros msg ->. run. reflexivity.
Qed.

(** X9.  Every failure of the summarization adapter reaches its caller as a
    500 whose detail is "Failed to process text with Azure OpenAI: "
    followed by the text of the exception caught; the collection is
    untouched.  In particular an unparseable response is not reported as
    "Invalid JSON response from Azure OpenAI" but as that exception's text
    behind the prefix, after two errors logged. *)
Theorem summarization_failure_detail (text : string) (w : world) :
  (forall e w',
      process_with_gpt4o svc text w = (Raise e, w') ->
      exists cause,
        e = HTTPException 500
              ("Failed to process text with Azure OpenAI: " ++ cause)
        /\ db w' = db w)
  /\ (forall raw,
         summarize_completion svc text = inr (Some raw) ->
         json_loads svc raw = None ->
         process_with_gpt4o svc text w
         = (Raise (HTTPException 500
                     ("Failed to process text with Azure OpenAI: "
                      ++ str_HTTPException svc 500
                           "Invalid JSON response from Azure OpenAI")),
            record_events w [CallSummarize text; Log ERROR; Log ERROR])).
Proof.
  split.
  - unfold process_with_gpt4o. run. intros e w'.
    destruct (summarize_completion svc text) as [msg|[raw|]]; run;
      try (intros [= <- <-]; eexists; split; reflexivity).
    destruct (json_loads svc raw) as [v|]; run;
      try (intros [= <- <-]; eexists; split; reflexivity).
    destruct v as [|b|z|f|s0|l0|m]; run;
      try (intros [= <- <-]; eexists; split; reflexivity).
    destruct (m !! "summary") as [sv|]; run;
      try (intros [= <- <-]; eexists; split; reflexivity).
    destruct (m !! "departments") as [dv|]; run;
      try (intros [= <- <-]; eexists; split; reflexivity).
    destruct sv as [|b|z|f|s|l0|m0]; run;
      try (intros [= <- <-]; eexists; split; reflexivity).
    destruct dv as [|b|z|f|s0|l|m0]; run;
      try (intros [= <- <-]; eexists; split; reflexivity).
    destruct (forallb is_department l); run;
      [discriminate|intros [= <- <-]; eexists; split; reflexivity].
  - intros raw Hsum Hj. unfold process_with_gpt4o. run.
    rewrite Hsum. run. rewrite Hj. run. reflexivity.
Qed.

(** X10.  What the summarization adapter returns always passes the check
    the upload handler repeats on it: the summary is a string and the
    departments are a list of entries with "name" and "email"; only the
    completion service was called. *)
Theorem summarization_result_valid (text : string) (w w' : world)
    (s d : pyval) :
  process_with_gpt4o svc text w = (Ok (s, d), w') ->
  is_str s = true /\ is_department_list d = true
  /\ w' = record_events w [CallSummarize text].
Proof.
  destruct (process_with_gpt4o_cases svc text w)
    as [(raw & s' & l & _ & (m & _ & _ & _ & Hl) & ->)|(detail & evs & _ & _ & ->)];
    [|discriminate].
  intros [= <- <- <-]. auto.
Qed.

End AdapterDetails.

Lemma extraction_outcomes_witness :
  extract_text_from_pdf (Fake.services (inr EmptyString) (inr None) None) []
    Fake.empty_world
  = (Raise (HTTPException 500
              "Failed to extract text from PDF: No text extracted from the document"),
     record_events Fake.empty_world [CallProcessDocument []; Log ERROR]).
Proof.
  apply (proj1 (proj2 (extraction_outcomes
                         (Fake.services (inr EmptyString) (inr None) None)
                         [] Fake.empty_world))).
  reflexivity.
Defined.

Lemma summarization_failure_detail_witness :
  process_with_gpt4o (Fake.services (inr "text") (inr (Some "not json")) None)
    "text" Fake.empty_world
  = (Raise (HTTPException 500
              ("Failed to process text with Azure OpenAI: "
               ++ "Invalid JSON response from Azure OpenAI")),
     record_events Fake.empty_world [CallSummarize "text"; Log ERROR; Log ERROR]).
Proof.
  apply (proj2 (summarization_failure_detail
                  (Fake.services (inr "text") (inr (Some "not json")) None)
                  "text" Fake.empty_world) "not json");
    reflexivity.
Defined.

Lemma summarization_result_valid_witness :
  is_str (PStr "s") = true
  /\ is_department_list (PList Fake.hr_legal) = true
  /\ record_events Fake.empty_world [CallSummarize "text"]
     = record_events Fake.empty_world [CallSummarize "text"].
Proof.
  apply (summarization_result_valid
           (Fake.services (inr "text") (inr (Some "raw"))
              (Some (Fake.answer_json (PStr "s") (PList Fake.hr_legal))))
           "text" Fake.empty_world).
  reflexivity.
Defined.

(** ** Every path of the upload handler *)

Section UploadPaths.

Variable svc : Services.

(** A successful upload went through extraction, a well-formed answer, the
    insert and the response model. *)
Lemma upload_pdf_ok_inv (file : UploadFile) (bt : bool) (w w' : world)
    (resp : SummaryResponse) :
  upload_pdf svc file bt w = (Ok resp, w') ->
  exists text raw s l oid ds,
    process_document svc (file_content file) = inr text
    /\ PyStr.is_empty text = false
    /\ summarize_completion svc text = inr (Some raw)
    /\ well_formed_answer (json_loads svc raw) s l
    /\ mongo_insert_one svc (db w) (stored_record svc file text s l) = inr oid
    /\ mapM (validate_str_dict svc) l = Some ds
    /\ resp = {| sr_filename := file_filename file;
                 sr_departments := ds;
                 sr_summary := s;
                 sr_mongo_id := oid |}
    /\ w' = {| db := db w ++ [(oid, stored_record svc file text s l)];
               trace := trace w ++ events_to_insert svc file bt text s l
                          ++ [FileClose] |}.
Proof.
  intros Hup.
  destruct (PyStr.endswith (PyStr.lower (file_filename file)) ".pdf") eqn:Hpdf.
  2:{ rewrite (upload_pdf_rejected svc file bt w Hpdf) in Hup. discriminate Hup. }
  destruct (extract_text_from_pdf_cases svc (file_content file) w)
    as [(text & Hdoc & Hne & Hx)|(d & _ & Hx)].
  2:{ destruct (upload_pdf_failure svc file bt w Hpdf) as (detail & evs & Heq & _).
      { left. eauto. }
      rewrite Heq in Hup. discriminate Hup. }
  destruct (process_with_gpt4o_cases svc text
              (record_events w [CallProcessDocument (file_content file)]))
    as [(raw & s & l & Hsum & Hwf & Hp)|(d & evs & _ & _ & Hp)].
  2:{ destruct (upload_pdf_failure svc file bt w Hpdf) as (detail & evs' & Heq & _).
      { right. left. eauto 10. }
      rewrite Heq in Hup. discriminate Hup. }
  rewrite (upload_pdf_processed svc file bt w text raw s l Hpdf Hdoc Hne Hsum Hwf)
    in Hup.
  destruct (mongo_insert_one svc (db w) _) as [msg|oid] eqn:Hins;
    [discriminate Hup|].
  destruct (mapM (validate_str_dict svc) l) as [ds|] eqn:Hds;
    [|discriminate Hup].
  injection Hup as <- <-.
  exists text, raw, s, l, oid, ds. repeat split; assumption.
Qed.

(** X13.  An upload never rewrites the collection: whatever happens, the
    collection afterwards is the one before, or the one before with one
    record appended. *)
Theorem upload_appends_at_most_one (file : UploadFile) (bt : bool) (w : world) :
  db (snd (upload_pdf svc file bt w)) = db w
  \/ exists record, db (snd (upload_pdf svc file bt w)) = (db w ++ [record])%list.
Proof.
  destruct (PyStr.endswith (PyStr.lower (file_filename file)) ".pdf") eqn:Hpdf.
  2:{ rewrite (upload_pdf_rejected svc file bt w Hpdf). left. reflexivity. }
  destruct (extract_text_from_pdf_cases svc (file_content file) w)
    as [(text & Hdoc & Hne & Hx)|(d & _ & Hx)].
  2:{ destruct (upload_pdf_failure svc file bt w Hpdf) as (detail & evs & Heq & _).
      { left. eauto. }
      rewrite Heq. left. reflexivity. }
  destruct (process_with_gpt4o_cases svc text
              (record_events w [CallProcessDocument (file_content file)]))
    as [(raw & s & l & Hsum & Hwf & Hp)|(d & evs & _ & _ & Hp)].
  2:{ destruct (upload_pdf_failure svc file bt w Hpdf) as (detail & evs' & Heq & _).
      { right. left. eauto 10. }
      rewrite Heq. left. reflexivity. }
  rewrite (upload_pdf_processed svc file bt w text raw s l Hpdf Hdoc Hne Hsum Hwf).
  destruct (mongo_insert_one svc (db w) _) as [msg|oid]; [left; reflexivity|].
  right. destruct (mapM (validate_str_dict svc) l); eexists; reflexivity.
Qed.

(** X12.  Emails are scheduled before the insert: when the insert fails,
    the upload is answered by a 500 and nothing is stored, yet the email
    batch has already been handed to the background tasks. *)
Theorem insert_failure_after_scheduling (file : UploadFile) (w : world)
    (text raw s msg : string) (l : list pyval) :
  ends_with_pdf_ci (file_filename file) ->
  process_document svc (file_content file) = inr text ->
  PyStr.is_empty text = false ->
  summarize_completion svc text = inr (Some raw) ->
  well_formed_answer (json_loads svc raw) s l ->
  mongo_insert_one svc (db w) (stored_record svc file text s l) = inl msg ->
  exists w',
    upload_pdf svc file true w
    = (Raise (HTTPException 500 ("Internal server error: " ++ msg)), w')
    /\ db w' = db w
    /\ In (AddTask (email_data (stored_record svc file text s l))) (trace w').
Proof.
  intros Hpdf Hdoc Hne Hsum Hwf Hins. apply ingress_check_iff in Hpdf.
  rewrite (upload_pdf_processed svc file true w text raw s l Hpdf Hdoc Hne Hsum Hwf).
  rewrite Hins. eexists. split; [reflexivity|]. split; [reflexivity|].
  simpl. rewrite in_app_iff. right. simpl. auto.
Qed.

End UploadPaths.

Lemma upload_appends_at_most_one_example :
  db (snd (upload_pdf
             (Fake.services (inr "text of the notice") (inr (Some "raw"))
                (Some (Fake.answer_json (PStr "s") (PList Fake.hr_legal))))
             Fake.notice_pdf true Fake.one_record))
  = (db Fake.one_record
     ++ [(Fake.new_id,
          stored_record
            (Fake.services (inr "text of the notice") (inr (Some "raw"))
               (Some (Fake.answer_json (PStr "s") (PList Fake.hr_legal))))
            Fake.notice_pdf "text of the notice" "s" Fake.hr_legal)])%list.
Proof. vm_compute. reflexivity. Qed.

Lemma insert_failure_after_scheduling_witness :
  let svc := Fake.with_insert_error Fake.notice_services "not primary" in
  exists w',
    upload_pdf svc Fake.notice_pdf true Fake.empty_world
    = (Raise (HTTPException 500 ("Internal server error: " ++ "not primary")), w')
    /\ db w' = db Fake.empty_world
    /\ In (AddTask (email_data (stored_record svc Fake.notice_pdf
                                  "text of the notice" "s" Fake.finance_it)))
         (trace w').
Proof.
  intros svc.
  apply (insert_failure_after_scheduling svc Fake.notice_pdf Fake.empty_world
           "text of the notice" "raw" "s" "not primary" Fake.finance_it).
  - apply ingress_check_iff. reflexivity.
  - reflexivity.
  - reflexivity.
  - reflexivity.
  - eexists. repeat split; reflexivity.
  - reflexivity.
Defined.

(** ** The response model on string-valued departments *)

Lemma validate_str_dict_strings (svc : Services) (d : pyval) :
  str_valued d ->
  validate_str_dict svc d = Some (strings_of d)
  /\ PDict (PStr <$> strings_of d) = d.
Proof.
  destruct d as [|b|z|x|s0|l0|m]; simpl; try contradiction.
  intros Hm. rewrite map_Forall_lookup in Hm. split.
  - rewrite bool_decide_eq_true_2.
    + f_equal. apply map_eq. intros i. rewrite !lookup_omap.
      destruct (m !! i) as [v|] eqn:E; [|reflexivity]. simpl.
      specialize (Hm i v E). destruct v; try discriminate Hm. reflexivity.
    + apply map_Forall_lookup. intros i v E. specialize (Hm i v E).
      destruct v; try discriminate Hm. simpl. eauto.
  - f_equal. apply map_eq. intros i. rewrite lookup_fmap, lookup_omap.
    destruct (m !! i) as [v|] eqn:E; [|reflexivity]. simpl.
    specialize (Hm i v E). destruct v; try discriminate Hm. reflexivity.
Qed.

Lemma mapM_validate_strings (svc : Services) (l : list pyval) :
  Forall str_valued l ->
  mapM (validate_str_dict svc) l = Some (map strings_of l).
Proof.
  induction 1 as [|d l Hd Hl IH]; [reflexivity|].
  simpl. rewrite (proj1 (validate_str_dict_strings svc d Hd)). simpl.
  rewrite IH. reflexivity.
Qed.

Lemma strings_of_round_trip (svc : Services) (l : list pyval) :
  Forall str_valued l ->
  map (fun m => PDict (PStr <$> m)) (map strings_of l) = l.
Proof.
  rewrite map_map. induction 1 as [|d l Hd Hl IH]; [reflexivity|].
  simpl. rewrite IH, (proj2 (validate_str_dict_strings svc d Hd)). reflexivity.
Qed.

(** X11.  An upload whose text is extracted, whose answer is well formed
    with string-valued departments and whose insert succeeds is answered
    with the filename, the summary, the departments as answered and the
    identifier the database gave; exactly one record is appended, holding
    the text, the summary, the departments and the notification list. *)
Theorem upload_success (svc : Services) (file : UploadFile) (bt : bool)
    (w : world) (text raw s : string) (l : list pyval) (oid : ObjectId) :
  ends_with_pdf_ci (file_filename file) ->
  process_document svc (file_content file) = inr text ->
  PyStr.is_empty text = false ->
  summarize_completion svc text = inr (Some raw) ->
  well_formed_answer (json_loads svc raw) s l ->
  Forall str_valued l ->
  mongo_insert_one svc (db w) (stored_record svc file text s l) = inr oid ->
  upload_pdf svc file bt w
  = (Ok {| sr_filename := file_filename file;
           sr_departments := map strings_of l;
           sr_summary := s;
           sr_mongo_id := oid |},
     {| db := db w ++ [(oid, stored_record svc file text s l)];
        trace := trace w ++ events_to_insert svc file bt text s l
                   ++ [FileClose] |})
  /\ map (fun m => PDict (PStr <$> m)) (map strings_of l) = l.
Proof.
  intros Hpdf Hdoc Hne Hsum Hwf Hstr Hins. apply ingress_check_iff in Hpdf.
  rewrite (upload_pdf_processed svc file bt w text raw s l Hpdf Hdoc Hne Hsum Hwf).
  rewrite Hins, (mapM_validate_strings svc l Hstr). split; [reflexivity|].
  apply (strings_of_round_trip svc l Hstr).
Qed.

Lemma finance_it_str_valued : Forall str_valued Fake.finance_it.
Proof.
  assert (H : forall name email,
             str_valued (Fake.dept (PStr name) (PStr email))).
  { intros name email. apply map_Forall_lookup. intros i v.
    rewrite lookup_insert. case_decide; [intros [= <-]; reflexivity|].
    rewrite lookup_insert. case_decide; [intros [= <-]; reflexivity|].
    rewrite lookup_empty. discriminate. }
  constructor; [apply H|]. constructor; [apply H|]. constructor.
Qed.

Lemma upload_success_witness :
  upload_pdf Fake.notice_services Fake.notice_pdf true Fake.empty_world
  = (Ok {| sr_filename := "Notice.PDF";
           sr_departments := map strings_of Fake.finance_it;
           sr_summary := "s";
           sr_mongo_id := Fake.new_id |},
     {| db := db Fake.empty_world
              ++ [(Fake.new_id,
                   stored_record Fake.notice_services Fake.notice_pdf
                     "text of the notice" "s" Fake.finance_it)];
        trace := trace Fake.empty_world
                 ++ events_to_insert Fake.notice_services Fake.notice_pdf true
                      "text of the notice" "s" Fake.finance_it
                 ++ [FileClose] |})
  /\ map (fun m => PDict (PStr <$> m)) (map strings_of Fake.finance_it)
     = Fake.finance_it.
Proof.
  apply (upload_success Fake.notice_services Fake.notice_pdf true
           Fake.empty_world "text of the notice" "raw" "s" Fake.finance_it
           Fake.new_id).
  - apply ingress_check_iff. reflexivity.
  - reflexivity.
  - reflexivity.
  - reflexivity.
  - eexists. repeat split; reflexivity.
  - exact finance_it_str_valued.
  - reflexivity.
Defined.

(** ** From an upload to the chat and the listing *)

Lemma find_appended (oid : ObjectId) (rec : submission) (l : list document) :
  (forall doc, In doc l -> fst doc <> oid) ->
  List.find (fun doc => String.eqb (fst doc) oid) (l ++ [(oid, rec)])
  = Some (oid, rec).
Proof.
  induction l as [|x l IH]; simpl; intros H.
  - now rewrite String.eqb_refl.
  - match goal with |- (if ?b then _ else _) = _ => destruct b eqn:E end.
    + apply String.eqb_eq in E. destruct (H x (or_introl eq_refl) E).
    + apply IH. intros doc Hin. apply H. now right.
Qed.

(** X14.  The identifier an upload returns resolves in the chat: if the
    database gave an identifier no older record has, a question about it is
    not answered 404, and the language model is asked about exactly the
    summary returned by the upload and the text extracted from the file. *)
Theorem uploaded_record_answers_chat (svc : Services) (file : UploadFile)
    (bt : bool) (w w' : world) (resp : SummaryResponse) (q : string) :
  upload_pdf svc file bt w = (Ok resp, w') ->
  (forall doc, In doc (db w) -> fst doc <> sr_mongo_id resp) ->
  bson_ObjectId svc (sr_mongo_id resp) = inr (sr_mongo_id resp) ->
  mongo_find_one_error svc (sr_mongo_id resp) = None ->
  exists text r w'' rest,
    process_document svc (file_content file) = inr text
    /\ chat svc {| mongo_id := sr_mongo_id resp; question := q |} w' = (r, w'')
    /\ trace w'' = (trace w' ++ DbFindOne (sr_mongo_id resp)
                      :: CallAnswer (sr_summary resp) text q :: rest)%list
    /\ forall detail, r <> Raise (HTTPException 404 detail).
Proof.
  intros Hup Hfresh Hid Herr.
  destruct (upload_pdf_ok_inv svc file bt w w' resp Hup)
    as (text & raw & s & l & oid & ds & Hdoc & _ & _ & _ & _ & _ & -> & ->).
  cbn [sr_mongo_id sr_summary] in *.
  pose proof (find_appended oid (stored_record svc file text s l) (db w) Hfresh)
    as Hfind.
  set (w' := {| db := db w ++ [(oid, stored_record svc file text s l)];
                trace := trace w ++ events_to_insert svc file bt text s l
                           ++ [FileClose] |}) in *.
  change (db w ++ [(oid, stored_record svc file text s l)])%list with (db w')
    in Hfind.
  exists text. rewrite chat_answer_question. cbn [mongo_id question].
  destruct (answer_completion svc s text q) as [msg|[content|]] eqn:Hans.
  - destruct (answer_question_no_answer svc oid q oid _ w' Hid Herr Hfind)
      as [detail ->]; [intros c; simpl; rewrite Hans; discriminate|].
    do 3 eexists. split; [exact Hdoc|]. split; [reflexivity|].
    split; [reflexivity|discriminate].
  - rewrite (answer_question_found svc oid q oid _ content w' Hid Herr Hfind Hans).
    cbv zeta. destruct (_ || _);
      do 3 eexists; (split; [exact Hdoc|]); (split; [reflexivity|]);
      (split; [reflexivity|discriminate]).
  - destruct (answer_question_no_answer svc oid q oid _ w' Hid Herr Hfind)
      as [detail ->]; [intros c; simpl; rewrite Hans; discriminate|].
    do 3 eexists. split; [exact Hdoc|]. split; [reflexivity|].
    split; [reflexivity|discriminate].
Qed.

Lemma notice_upload (w : world) :
  upload_pdf Fake.notice_services Fake.notice_pdf true w
  = (Ok {| sr_filename := "Notice.PDF";
           sr_departments := map strings_of Fake.finance_it;
           sr_summary := "s";
           sr_mongo_id := Fake.new_id |},
     snd (upload_pdf Fake.notice_services Fake.notice_pdf true w)).
Proof.
  assert (Hpdf : PyStr.endswith (PyStr.lower (file_filename Fake.notice_pdf))
                   ".pdf" = true) by reflexivity.
  assert (Hwf : well_formed_answer (json_loads Fake.notice_services "raw") "s"
                  Fake.finance_it)
    by (eexists; repeat split; reflexivity).
  rewrite (upload_pdf_processed Fake.notice_services Fake.notice_pdf true w
             "text of the notice" "raw" "s" Fake.finance_it
             Hpdf eq_refl eq_refl eq_refl Hwf).
  reflexivity.
Qed.

Lemma uploaded_record_answers_chat_witness :
  exists text r w'' rest,
    process_document Fake.notice_services (file_content Fake.notice_pdf)
    = inr text
    /\ chat Fake.notice_services
         {| mongo_id := Fake.new_id; question := "Who is concerned?" |}
         (snd (upload_pdf Fake.notice_services Fake.notice_pdf true
                 Fake.empty_world)) = (r, w'')
    /\ trace w''
       = (trace (snd (upload_pdf Fake.notice_services Fake.notice_pdf true
                        Fake.empty_world))
          ++ DbFindOne Fake.new_id
          :: CallAnswer "s" text "Who is concerned?" :: rest)%list
    /\ forall detail, r <> Raise (HTTPException 404 detail).
Proof.
  apply (uploaded_record_answers_chat Fake.notice_services Fake.notice_pdf true
           Fake.empty_world _
           {| sr_filename := "Notice.PDF";
              sr_departments := map strings_of Fake.finance_it;
              sr_summary := "s";
              sr_mongo_id := Fake.new_id |} "Who is concerned?").
  - apply notice_upload.
  - intros doc [].
  - reflexivity.
  - reflexivity.
Defined.

(** X15.  The record an upload stores is listed: after a successful
    upload, one listing request whose limit exceeds the number of records
    there were returns exactly those records and the new one, which carries
    the identifier, filename and summary the upload returned, the text
    extracted from the file and the time of the upload; the total is one
    higher. *)
Theorem uploaded_record_is_listed (svc : Services) (file : UploadFile)
    (bt : bool) (w w' : world) (resp : SummaryResponse) (lim : Z) :
  mongo_count_error svc = None ->
  (forall skip l, mongo_find_error svc skip l = None) ->
  upload_pdf svc file bt w = (Ok resp, w') ->
  Z.of_nat (length (db w)) < lim <= 50 ->
  exists r w'' rec,
    get_all_documents svc (Some 1) (Some lim) w' = (Ok r, w'')
    /\ total r = Z.of_nat (length (db w)) + 1
    /\ Permutation (data r) (db w ++ [(sr_mongo_id resp, rec)])
    /\ filename rec = sr_filename resp
    /\ sub_summary rec = sr_summary resp
    /\ process_document svc (file_content file) = inr (extracted_text rec)
    /\ timestamp rec = utcnow svc.
Proof.
  intros Hcount Hfind Hup Hlim.
  destruct (upload_pdf_ok_inv svc file bt w w' resp Hup)
    as (text & raw & s & l & oid & ds & Hdoc & _ & _ & _ & _ & _ & -> & ->).
  cbn [sr_mongo_id sr_summary sr_filename].
  set (rec := stored_record svc file text s l).
  set (w' := {| db := db w ++ [(oid, rec)];
                trace := trace w ++ events_to_insert svc file bt text s l
                           ++ [FileClose] |}).
  rewrite (get_all_documents_ok svc (Some 1) (Some lim) w' Hcount (Hfind _ _)).
  do 2 eexists. exists rec. split; [reflexivity|]. cbn [total data default].
  assert (Hl : effective_limit lim = lim) by (apply effective_limit_id; lia).
  unfold id. rewrite Hl. change (effective_page 1) with 1.
  change (db w') with (db w ++ [(oid, rec)])%list.
  split; [rewrite length_app; simpl; lia|].
  split; [|repeat split; exact Hdoc].
  change ((1 - 1) * lim) with 0. rewrite Z2Nat.inj_0, drop_0.
  rewrite take_ge; [apply sort_desc_perm|].
  rewrite length_sort_desc, length_app. simpl. lia.
Qed.

Lemma uploaded_record_is_listed_witness :
  exists r w'' rec,
    get_all_documents Fake.notice_services (Some 1) (Some 5)
      (snd (upload_pdf Fake.notice_services Fake.notice_pdf true
              Fake.empty_world)) = (Ok r, w'')
    /\ total r = Z.of_nat (length (db Fake.empty_world)) + 1
    /\ Permutation (data r) (db Fake.empty_world ++ [(Fake.new_id, rec)])
    /\ filename rec = "Notice.PDF"
    /\ sub_summary rec = "s"
    /\ process_document Fake.notice_services (file_content Fake.notice_pdf)
       = inr (extracted_text rec)
    /\ timestamp rec = utcnow Fake.notice_services.
Proof.
  apply (uploaded_record_is_listed Fake.notice_services Fake.notice_pdf true
           Fake.empty_world _
           {| sr_filename := "Notice.PDF";
              sr_departments := map strings_of Fake.finance_it;
              sr_summary := "s";
              sr_mongo_id := Fake.new_id |} 5 eq_refl (fun _ _ => eq_refl)).
  - apply notice_upload.
  - simpl. lia.
Defined.

(** ** The notification dispatcher and the notification list *)

Section Notifications.

Variable svc : Services.

Variable header_error : string -> pyval -> option string.

Lemma headers_accepted_inv (e : email_entry) :
  headers_accepted svc header_error e = true ->
  header_error "From" (PStr (SMTP_USER svc)) = None
  /\ header_error "To" (to e) = None
  /\ header_error "Subject" (PStr (subject e)) = None.
Proof.
  unfold headers_accepted.
  destruct (header_error "From" _); [discriminate|].
  destruct (header_error "To" _); [discriminate|].
  destruct (header_error "Subject" _); [discriminate|]. auto.
Qed.

Lemma headers_refused_inv (e : email_entry) :
  headers_accepted svc header_error e = false ->
  exists msg, forall (k : unit -> M unit) w,
    bind (set_header header_error "From" (PStr (SMTP_USER svc)))
      (fun _ => bind (set_header header_error "To" (to e))
         (fun _ => bind (set_header header_error "Subject" (PStr (subject e))) k))
      w
    = (Raise (Exception msg), w).
Proof.
  unfold headers_accepted, set_header.
  destruct (header_error "From" _) as [m1|];
    [intros _; exists m1; reflexivity|].
  destruct (header_error "To" _) as [m2|];
    [intros _; exists m2; reflexivity|].
  destruct (header_error "Subject" _) as [m3|];
    [intros _; exists m3; reflexivity|discriminate].
Qed.

(** One accepted entry: its message is handed to the transport, and the
    loop goes on whatever the transport answers. *)
Lemma send_each_step (e : email_entry) (rest : list email_entry) (w : world) :
  headers_accepted svc header_error e = true ->
  exists lv,
    send_each svc header_error (e :: rest) w
    = send_each svc header_error rest
        (record_events w [SmtpSend (compose_message svc e); Log lv]).
Proof.
  intros H. apply headers_accepted_inv in H as (H1 & H2 & H3).
  cbn [send_each]. unfold set_header. rewrite H1, H2, H3. run.
  destruct (smtp_send svc (compose_message svc e)) as [msg|[]]; run;
    eexists; reflexivity.
Qed.

Lemma send_each_sends (emails : list email_entry) (w : world) :
  forallb (headers_accepted svc header_error) emails = true ->
  exists evs,
    send_each svc header_error emails w = (Ok tt, record_events w evs)
    /\ smtp_sent evs = map (compose_message svc) emails.
Proof.
  revert w. induction emails as [|e r IH]; intros w Hacc.
  - exists []. rewrite record_events_nil. auto.
  - simpl in Hacc. apply andb_prop in Hacc as [He Hr].
    destruct (send_each_step e r w He) as [lv ->].
    destruct (IH (record_events w [SmtpSend (compose_message svc e); Log lv]) Hr)
      as (evs & -> & Hs).
    rewrite record_events_app. eexists. split; [reflexivity|].
    simpl. now rewrite Hs.
Qed.

Lemma send_each_aborts (before : list email_entry) (e : email_entry)
    (after : list email_entry) (w : world) :
  forallb (headers_accepted svc header_error) before = true ->
  headers_accepted svc header_error e = false ->
  exists msg evs,
    send_each svc header_error (before ++ e :: after) w
    = (Raise (Exception msg), record_events w evs)
    /\ smtp_sent evs = map (compose_message svc) before.
Proof.
  revert w. induction before as [|b r IH]; intros w Hacc Href.
  - destruct (headers_refused_inv e Href) as [msg Hmsg].
    exists msg, []. rewrite record_events_nil. split; [|reflexivity].
    simpl. apply Hmsg.
  - simpl in Hacc. apply andb_prop in Hacc as [Hb Hr].
    change ((b :: r) ++ e :: after)%list with (b :: (r ++ e :: after))%list.
    destruct (send_each_step b (r ++ e :: after) w Hb) as [lv ->].
    destruct (IH (record_events w [SmtpSend (compose_message svc b); Log lv])
                Hr Href) as (msg & evs & -> & Hs).
    rewrite record_events_app. do 2 eexists. split; [reflexivity|].
    simpl. now rewrite Hs.
Qed.

(** X16.  A message the transport refuses does not stop the batch, a header
    value the mail library refuses does.  When the library takes the header
    values of every entry, the dispatcher returns normally with the
    collection untouched, having handed the transport one message per
    entry, in order, whatever the transport answered (for an empty list it
    only logs a warning).  When it refuses a header value of some entry,
    the dispatcher raises at that entry: the transport got the messages of
    the entries before it and none after. *)
Theorem dispatcher_attempts_every_entry (emails : list email_entry) (w : world) :
  (forallb (headers_accepted svc header_error) emails = true ->
   exists evs,
     send_emails_async svc header_error emails w = (Ok tt, record_events w evs)
     /\ smtp_sent evs = map (compose_message svc) emails
     /\ (emails = [] -> evs = [Log WARNING]))
  /\ (forall before e after,
         emails = (before ++ e :: after)%list ->
         forallb (headers_accepted svc header_error) before = true ->
         headers_accepted svc header_error e = false ->
         exists msg evs,
           send_emails_async svc header_error emails w
           = (Raise (Exception msg), record_events w evs)
           /\ smtp_sent evs = map (compose_message svc) before).
Proof.
  split.
  - intros Hacc. destruct emails as [|e r].
    + exists [Log WARNING]. repeat split; reflexivity.
    + destruct (send_each_sends (e :: r) w Hacc) as (evs & Heq & Hs).
      exists evs. repeat split; try assumption. discriminate.
  - intros before e after -> Hacc Href.
    destruct (send_each_aborts before e after w Hacc Href)
      as (msg & evs & Heq & Hs).
    exists msg, evs. split; [|exact Hs].
    destruct before; exact Heq.
Qed.

Lemma prepare_email_data_ok_iff (l : list pyval) (s f : string) :
  (exists entries, prepare_email_data svc l s f = Ok entries)
  <-> forallb sendable l = true.
Proof.
  induction l as [|d l IH]; simpl.
  - split; eauto.
  - destruct d as [|b|z|x|s0|l0|m]; simpl;
      try (split; [intros [? H]; discriminate H|discriminate]).
    unfold dict_has.
    destruct (truthy (dict_get m "email")); simpl; [|exact IH].
    destruct (m !! "name") as [name|]; simpl.
    + rewrite <- IH. split.
      * intros [entries H].
        destruct (prepare_email_data svc l s f); [eauto|discriminate H].
      * intros [entries ->]. eauto.
    + split; [intros [? H]; discriminate H|discriminate].
Qed.

(** X17.  On departments that were not validated, building the
    notification list succeeds exactly when every entry is a dict that has
    a "name" whenever its "email" is true: an entry without "email", or
    with a false one, is skipped even without a "name"; and the list never
    has more entries than there are departments. *)
Theorem notification_list_defined_iff (l : list pyval) (s f : string) :
  ((exists entries, prepare_email_data svc l s f = Ok entries)
   <-> forallb sendable l = true)
  /\ (forall entries,
         prepare_email_data svc l s f = Ok entries ->
         (length entries <= length l)%nat
         /\ Forall (fun e => truthy (to e) = true /\ summary e = s) entries).
Proof.
  split; [apply prepare_email_data_ok_iff|].
  induction l as [|d l IH]; simpl.
  - intros entries [= <-]. split; [simpl; lia|constructor].
  - destruct d as [|b|z|x|s0|l0|m]; try discriminate.
    destruct (truthy (dict_get m "email")) eqn:Et.
    + destruct (m !! "name") as [name|]; [|discriminate].
      destruct (prepare_email_data svc l s f) as [es|]; [|discriminate].
      intros entries [= <-]. destruct (IH es eq_refl) as [Hlen Hall].
      split; [simpl; lia|]. constructor; [split; [exact Et|reflexivity]|exact Hall].
    + intros entries H. destruct (IH entries H). split; [lia|assumption].
Qed.

End Notifications.

Lemma dispatcher_attempts_every_entry_witness :
  let svc := Fake.with_smtp_error Fake.notice_services "relay denied" in
  let emails := email_data (stored_record svc Fake.notice_pdf
                              "text of the notice" "s" Fake.finance_it) in
  (length emails = 2%nat
   /\ exists evs,
       send_emails_async svc Fake.header_error emails Fake.empty_world
       = (Ok tt, record_events Fake.empty_world evs)
       /\ smtp_sent evs = map (compose_message svc) emails
       /\ (emails = [] -> evs = [Log WARNING]))
  /\ exists msg evs,
      send_emails_async svc Fake.header_error Fake.three_entries
        Fake.empty_world
      = (Raise (Exception msg), record_events Fake.empty_world evs)
      /\ smtp_sent evs = map (compose_message svc) (take 1 Fake.three_entries).
Proof.
  intros svc emails. split; [split; [reflexivity|]|].
  - apply (proj1 (dispatcher_attempts_every_entry svc Fake.header_error emails
                    Fake.empty_world)).
    reflexivity.
  - apply (proj2 (dispatcher_attempts_every_entry svc Fake.header_error
                    Fake.three_entries Fake.empty_world)
             (take 1 Fake.three_entries)
             {| department := PStr "HR"; summary := "s";
                subject := "Notice Summary for HR: Notice.PDF";
                to := PStr "<" |}
             (drop 2 Fake.three_entries));
      reflexivity.
Defined.

Lemma notification_list_defined_iff_witness :
  (length ([] : list email_entry) <= 1)%nat
  /\ Forall (fun e => truthy (to e) = true /\ summary e = "s") [].
Proof.
  apply (proj2 (notification_list_defined_iff
                  (Fake.services (inl "unused") (inr None) None)
                  [PDict ∅] "s" "Notice.PDF")).
  reflexivity.
Defined.

(** ** Startup and health *)

Section StartupFacts.

Import Startup.

Variable env : Settings.
Variable lib : Libraries.
Variable json_loads : string -> option pyval.

Lemma startup_event_ready (c : Clients) :
  startup_ready env lib json_loads ->
  startup_event env lib json_loads c
  = (Ok tt,
     {| mongo_client := true; documentai_client := true;
        azure_openai_client := true |},
     [INFO; INFO; INFO; INFO]).
Proof.
  intros ([[] Hm] & [[] Hi] & Hg1 & Hg2 & Hg3 & (d & [] & Hj & Hd)
          & Ha1 & Ha2 & [[] Ha] & Hs1 & Hs2 & Hs3).
  unfold startup_event.
  rewrite Hm, Hi, Hg1, Hg2, Hg3. simpl. rewrite Hj, Hd, Ha1, Ha2. simpl.
  rewrite Ha, Hs1, Hs2, Hs3. reflexivity.
Qed.

Lemma startup_event_ok_inv (c : Clients) :
  fst (fst (startup_event env lib json_loads c)) = Ok tt ->
  startup_ready env lib json_loads.
Proof.
  unfold startup_event, startup_ready, failed.
  destruct (new_mongo_client lib) as [?|[]]; [discriminate|].
  destruct (server_info lib) as [?|[]]; [discriminate|].
  destruct (unset (GOOGLE_CREDENTIALS_JSON env)); [discriminate|].
  destruct (unset (GOOGLE_PROJECT_ID env)); [discriminate|].
  destruct (unset (DOCUMENT_AI_PROCESSOR_ID env)); [discriminate|]. simpl.
  destruct (json_loads _) as [d|]; [|discriminate].
  destruct (new_documentai_client lib d) as [?|[]] eqn:Hd; [discriminate|].
  destruct (unset (AZURE_OPENAI_KEY env)); [discriminate|].
  destruct (unset (AZURE_OPENAI_ENDPOINT env)); [discriminate|]. simpl.
  destruct (new_azure_client lib) as [?|[]]; [discriminate|].
  destruct (unset (SMTP_USER env)); [discriminate|].
  destruct (unset (SMTP_PASSWORD env)); [discriminate|].
  destruct (PyStr.is_empty (SMTP_SERVER env)); [discriminate|].
  intros _. repeat split; eauto.
Qed.

(** X18.  Startup succeeds exactly when the database answers, the Google
    settings are set and the credentials parse and are accepted, the Azure
    settings are set and the client is built, and the SMTP settings are
    set; it then leaves the three client handles assigned.  An unset
    variable and an empty one count the same. *)
Theorem startup_succeeds_iff (c : Clients) :
  (fst (fst (startup_event env lib json_loads c)) = Ok tt
   <-> startup_ready env lib json_loads)
  /\ (startup_ready env lib json_loads ->
      snd (fst (startup_event env lib json_loads c))
      = {| mongo_client := true; documentai_client := true;
           azure_openai_client := true |}).
Proof.
  split; [split|].
  - apply startup_event_ok_inv.
  - intros H. now rewrite (startup_event_ready c H).
  - intros H. now rewrite (startup_event_ready c H).
Qed.

(** X19.  A startup that fails raises a 500 whose detail is "Failed to
    initialize services: " followed by the cause, logs the error last, and
    unsets no client handle that was assigned. *)
Theorem startup_failure_shape (c c' : Clients) (e : exn) (logs : list level) :
  startup_event env lib json_loads c = (Raise e, c', logs) ->
  (exists cause,
      e = HTTPException 500 ("Failed to initialize services: " ++ cause))
  /\ (exists before, logs = (before ++ [ERROR])%list)
  /\ (mongo_client c = true -> mongo_client c' = true)
  /\ (documentai_client c = true -> documentai_client c' = true)
  /\ (azure_openai_client c = true -> azure_openai_client c' = true).
Proof.
  unfold startup_event, failed.
  assert (Hshape : forall (c0 : Clients) before msg,
             (mongo_client c = true -> mongo_client c0 = true) ->
             (documentai_client c = true -> documentai_client c0 = true) ->
             (azure_openai_client c = true -> azure_openai_client c0 = true) ->
             (@Raise unit
                (HTTPException 500 ("Failed to initialize services: " ++ msg)),
              c0, (before ++ [ERROR])%list) = (Raise e, c', logs) ->
             (exists cause,
                 e = HTTPException 500 ("Failed to initialize services: " ++ cause))
             /\ (exists before, logs = (before ++ [ERROR])%list)
             /\ (mongo_client c = true -> mongo_client c' = true)
             /\ (documentai_client c = true -> documentai_client c' = true)
             /\ (azure_openai_client c = true -> azure_openai_client c' = true)).
  { intros c0 before msg H1 H2 H3 [= <- <- <-]. eauto 10. }
  destruct (new_mongo_client lib) as [?|[]]; [apply Hshape; auto|].
  destruct (server_info lib) as [?|[]]; [apply Hshape; simpl; auto|].
  destruct (unset (GOOGLE_CREDENTIALS_JSON env) || unset (GOOGLE_PROJECT_ID env)
            || unset (DOCUMENT_AI_PROCESSOR_ID env));
    [apply Hshape; simpl; auto|].
  destruct (json_loads _) as [d|]; [|apply Hshape; simpl; auto].
  destruct (new_documentai_client lib d) as [?|[]];
    [apply Hshape; simpl; auto|].
  destruct (unset (AZURE_OPENAI_KEY env) || unset (AZURE_OPENAI_ENDPOINT env));
    [apply Hshape; simpl; auto|].
  destruct (new_azure_client lib) as [?|[]]; [apply Hshape; simpl; auto|].
  destruct (unset (SMTP_USER env) || unset (SMTP_PASSWORD env)
            || PyStr.is_empty (SMTP_SERVER env));
    [apply Hshape; simpl; auto|discriminate].
Qed.

(** X20.  The SMTP settings are tested last: when they alone are missing,
    startup fails although the database was reached and the three clients
    were built, and the handles stay assigned. *)
Theorem startup_smtp_checked_last (c : Clients) :
  (exists u, new_mongo_client lib = inr u) ->
  (exists u, server_info lib = inr u) ->
  unset (GOOGLE_CREDENTIALS_JSON env) = false ->
  unset (GOOGLE_PROJECT_ID env) = false ->
  unset (DOCUMENT_AI_PROCESSOR_ID env) = false ->
  (exists creds_dict u,
      json_loads (default EmptyString (GOOGLE_CREDENTIALS_JSON env))
      = Some creds_dict
      /\ new_documentai_client lib creds_dict = inr u) ->
  unset (AZURE_OPENAI_KEY env) = false ->
  unset (AZURE_OPENAI_ENDPOINT env) = false ->
  (exists u, new_azure_client lib = inr u) ->
  unset (SMTP_USER env) || unset (SMTP_PASSWORD env)
  || PyStr.is_empty (SMTP_SERVER env) = true ->
  startup_event env lib json_loads c
  = (Raise (HTTPException 500
              ("Failed to initialize services: "
               ++ "SMTP_USER, SMTP_PASSWORD, or SMTP_SERVER not set in .env")),
     {| mongo_client := true; documentai_client := true;
        azure_openai_client := true |},
     [INFO; INFO; INFO; ERROR]).
Proof.
  intros [[] Hm] [[] Hi] Hg1 Hg2 Hg3 (d & [] & Hj & Hd) Ha1 Ha2 [[] Ha] Hs.
  unfold startup_event.
  rewrite Hm, Hi, Hg1, Hg2, Hg3. simpl. rewrite Hj, Hd, Ha1, Ha2. simpl.
  rewrite Ha, Hs. reflexivity.
Qed.

(** X21.  A service that started is healthy as long as the database still
    answers: after a successful startup, the health check with the same
    database reports "healthy"; without a Mongo handle it answers 503. *)
Theorem health_after_startup (c : Clients) :
  (fst (fst (startup_event env lib json_loads c)) = Ok tt ->
   health_check lib (snd (fst (startup_event env lib json_loads c)))
   = (Ok "healthy", []))
  /\ (forall c0, mongo_client c0 = false ->
        health_check lib c0
        = (Raise (HTTPException 503 "Service unhealthy"), [ERROR])).
Proof.
  split.
  - intros H. apply startup_event_ok_inv in H.
    unfold health_check. rewrite (startup_event_ready c H). simpl.
    destruct H as (_ & [[] Hi] & _). rewrite Hi. reflexivity.
  - intros c0 H. unfold health_check. rewrite H. reflexivity.
Qed.

End StartupFacts.

Lemma fake_startup_ready :
  startup_ready Fake.settings Fake.libraries Fake.parse_credentials.
Proof. unfold startup_ready. repeat split; eauto. Qed.

Lemma startup_succeeds_iff_witness :
  fst (fst (Startup.startup_event Fake.settings Fake.libraries
              Fake.parse_credentials Fake.no_clients)) = Ok tt
  /\ snd (fst (Startup.startup_event Fake.settings Fake.libraries
                 Fake.parse_credentials Fake.no_clients))
     = {| Startup.mongo_client := true; Startup.documentai_client := true;
          Startup.azure_openai_client := true |}.
Proof.
  split.
  - apply (proj1 (startup_succeeds_iff Fake.settings Fake.libraries
                    Fake.parse_credentials Fake.no_clients)).
    exact fake_startup_ready.
  - apply (proj2 (startup_succeeds_iff Fake.settings Fake.libraries
                    Fake.parse_credentials Fake.no_clients)).
    exact fake_startup_ready.
Defined.

Lemma startup_failure_shape_witness :
  (exists cause,
      HTTPException 500
        ("Failed to initialize services: "
         ++ "SMTP_USER, SMTP_PASSWORD, or SMTP_SERVER not set in .env")
      = HTTPException 500 ("Failed to initialize services: " ++ cause))
  /\ (exists before, [INFO; INFO; INFO; ERROR] = (before ++ [ERROR])%list)
  /\ (Startup.mongo_client Fake.no_clients = true -> true = true)
  /\ (Startup.documentai_client Fake.no_clients = true -> true = true)
  /\ (Startup.azure_openai_client Fake.no_clients = true -> true = true).
Proof.
  apply (startup_failure_shape Fake.settings_without_password Fake.libraries
           Fake.parse_credentials Fake.no_clients
           {| Startup.mongo_client := true; Startup.documentai_client := true;
              Startup.azure_openai_client := true |}).
  reflexivity.
Defined.

Lemma startup_smtp_checked_last_witness :
  Startup.startup_event Fake.settings_without_password Fake.libraries
    Fake.parse_credentials Fake.no_clients
  = (Raise (HTTPException 500
              ("Failed to initialize services: "
               ++ "SMTP_USER, SMTP_PASSWORD, or SMTP_SERVER not set in .env")),
     {| Startup.mongo_client := true; Startup.documentai_client := true;
        Startup.azure_openai_client := true |},
     [INFO; INFO; INFO; ERROR]).
Proof.
  apply (startup_smtp_checked_last Fake.settings_without_password
           Fake.libraries Fake.parse_credentials Fake.no_clients);
    try reflexivity; eauto.
Defined.

Lemma health_after_startup_witness :
  Startup.health_check Fake.libraries
    (snd (fst (Startup.startup_event Fake.settings Fake.libraries
                 Fake.parse_credentials Fake.no_clients)))
  = (Ok "healthy", [])
  /\ Startup.health_check Fake.libraries Fake.no_clients
     = (Raise (HTTPException 503 "Service unhealthy"), [ERROR]).
Proof.
  split.
  - apply (proj1 (health_after_startup Fake.settings Fake.libraries
                    Fake.parse_credentials Fake.no_clients)).
    reflexivity.
  - apply (proj2 (health_after_startup Fake.settings Fake.libraries
                    Fake.parse_credentials Fake.no_clients)).
    reflexivity.
Defined.
